(** * notion-proxy-server: the three proxy routes of [index.js]

    A shallow embedding of the Express handlers of [index.js] and of the
    values they handle, followed by the properties of the handlers.

    The values are the ones [JSON.parse] produces (the request body parsed by
    [express.json()], the responses of the Notion client), together with
    [undefined], which member accesses produce.  Strings are sequences of
    UTF-16 code units, as in the language.  Evaluation can throw: a
    member access on [null] or [undefined] and a call of something that
    is not a function raise a [TypeError], which the handlers' [try]
    blocks catch. *)

From Stdlib Require Import List NArith ZArith Bool String Ascii Lia.
From Stdlib Require Import Floats.PrimFloat.
Import ListNotations.

Set Warnings "-register-all".

(** ** Strings *)

Module JsString.

(** A string is the list of its UTF-16 code units. *)
Definition jsstring : Type := list N.

(** The code units of an ASCII literal of the source text. *)
Fixpoint js (s : string) : jsstring :=
  match s with
  | EmptyString => []
  | String a s' => N_of_ascii a :: js s'
  end.

Fixpoint eqb (s t : jsstring) : bool :=
  match s, t with
  | [], [] => true
  | c :: s', d :: t' => N.eqb c d && eqb s' t'
  | _, _ => false
  end.

(** The empty string literal. *)
Definition empty : jsstring := [].

Definition is_empty (s : jsstring) : bool :=
  match s with [] => true | _ :: _ => false end.

Definition comma : N := 44.

(** [s.split(sep)] for a separator of one code unit: the segments between
    the occurrences of [sep], in order; never the empty list. *)
Fixpoint split (sep : N) (s : jsstring) : list jsstring :=
  match s with
  | [] => [[]]
  | c :: s' =>
      if N.eqb c sep then [] :: split sep s'
      else match split sep s' with
           | seg :: segs => (c :: seg) :: segs
           | [] => [[c]]
           end
  end.

(** White space and line terminators of ECMAScript, the code units that
    [String.prototype.trim] removes. *)
Definition is_space (c : N) : bool :=
  ((9 <=? c) && (c <=? 13) || (c =? 32) || (c =? 160) || (c =? 5760)
   || (8192 <=? c) && (c <=? 8202) || (c =? 8232) || (c =? 8233)
   || (c =? 8239) || (c =? 8287) || (c =? 12288) || (c =? 65279))%N.

Fixpoint trimStart (s : jsstring) : jsstring :=
  match s with
  | [] => []
  | c :: s' => if is_space c then trimStart s' else s
  end.

Definition trimEnd (s : jsstring) : jsstring := rev (trimStart (rev s)).

(** [s.trim()] *)
Definition trim (s : jsstring) : jsstring := trimEnd (trimStart s).

(** [segs.join(sep)] on strings. *)
Fixpoint join (sep : jsstring) (segs : list jsstring) : jsstring :=
  match segs with
  | [] => []
  | [seg] => seg
  | seg :: segs' => seg ++ sep ++ join sep segs'
  end.

(** The array index a property key denotes, if any: the canonical
    decimal numerals. *)
Definition digit (c : N) : option N :=
  if ((48 <=? c) && (c <=? 57))%N then Some (c - 48)%N else None.

Fixpoint numeral (acc : N) (s : jsstring) : option N :=
  match s with
  | [] => Some acc
  | c :: s' =>
      match digit c with
      | Some d => numeral (10 * acc + d)%N s'
      | None => None
      end
  end.

Definition array_index (k : jsstring) : option N :=
  match k with
  | [] => None
  | [c] => digit c
  | c :: _ => if N.eqb c 48 then None else numeral 0 k
  end.

End JsString.

Import JsString.

(** ** Values *)

Inductive value : Type :=
| VUndef
| VNull
| VBool (b : bool)
| VNum (x : float)
| VStr (s : jsstring)
| VArr (elems : list value)
| VObj (fields : list (jsstring * value)).

(** What a [throw] carries.  The handlers read one thing of it, [error.body].
    The runtime's [TypeError] has none; the errors of the Notion client
    ([APIResponseError] and the others) are [Error] objects too, with or
    without a [body]. *)
Inductive js_error : Type :=
| TypeError
| ClientError (body : value).

Definition error_body (e : js_error) : value :=
  match e with
  | TypeError => VUndef
  | ClientError b => b
  end.

(** ** Evaluation that can throw *)

Inductive result (A : Type) : Type :=
| Ok (a : A)
| Throw (e : js_error).

Arguments Ok {A} a.
Arguments Throw {A} e.

Module Eval.

Definition bind {A B : Type} (r : result A) (k : A -> result B) : result B :=
  match r with
  | Ok a => k a
  | Throw e => Throw e
  end.

Fixpoint mapM {A B : Type} (f : A -> result B) (l : list A) : result (list B) :=
  match l with
  | [] => Ok []
  | a :: l' =>
      bind (f a) (fun b => bind (mapM f l') (fun bs => Ok (b :: bs)))
  end.

End Eval.

Declare Scope eval_scope.
Delimit Scope eval_scope with eval.
Notation "'let*' x ':=' r 'in' k" := (Eval.bind r (fun x => k))
  (at level 10, x name, r at level 100, k at level 200) : eval_scope.
Local Open Scope eval_scope.

(** ** Operators of the language *)

(** ToBoolean: what [!v], [a || b] and [filter(Boolean)] test. *)
Definition truthy (v : value) : bool :=
  match v with
  | VUndef | VNull => false
  | VBool b => b
  | VNum x => negb (PrimFloat.is_zero x || PrimFloat.is_nan x)
  | VStr s => negb (is_empty s)
  | VArr _ | VObj _ => true
  end.

(** [a || b] on values already evaluated. *)
Definition or_else (a b : value) : value := if truthy a then a else b.

Fixpoint lookup (k : jsstring) (fields : list (jsstring * value)) : option value :=
  match fields with
  | [] => None
  | (k', v) :: fields' => if JsString.eqb k k' then Some v else lookup k fields'
  end.

(** The names every object inherits from [Object.prototype].  Read from an
    object that has no field of that name, they give the inherited member
    and not [undefined]. *)
Definition inherited_names : list jsstring :=
  map js ["constructor"; "hasOwnProperty"; "isPrototypeOf";
          "propertyIsEnumerable"; "toLocaleString"; "toString"; "valueOf";
          "__proto__"; "__defineGetter__"; "__defineSetter__";
          "__lookupGetter__"; "__lookupSetter__"]%string.

Definition data_key (k : jsstring) : bool :=
  negb (existsb (JsString.eqb k) inherited_names).

(** [v[k]] and [v.k] for a data key [k].  Only the own data of a value is
    modelled: the fields of an object, the elements of an array, the code
    units of a string.  [length] and the members a value inherits from its
    prototype are not data; no key the handlers read names one (see
    [handler_keys]). *)
Definition get (v : value) (k : jsstring) : result value :=
  match v with
  | VUndef | VNull => Throw TypeError
  | VBool _ | VNum _ => Ok VUndef
  | VStr s =>
      match array_index k with
      | Some i => match nth_error s (N.to_nat i) with
                  | Some c => Ok (VStr [c])
                  | None => Ok VUndef
                  end
      | None => Ok VUndef
      end
  | VArr elems =>
      match array_index k with
      | Some i => match nth_error elems (N.to_nat i) with
                  | Some e => Ok e
                  | None => Ok VUndef
                  end
      | None => Ok VUndef
      end
  | VObj fields =>
      match lookup k fields with
      | Some e => Ok e
      | None => Ok VUndef
      end
  end.

(** [v?.k] and [v?.[k]] *)
Definition get_opt (v : value) (k : jsstring) : result value :=
  match v with
  | VUndef | VNull => Ok VUndef
  | _ => get v k
  end.

(** [v.map(f)]: among the values here only arrays have a [map] to call. *)
Definition array_map (f : value -> result value) (v : value) : result value :=
  match v with
  | VArr elems => let* out := Eval.mapM f elems in Ok (VArr out)
  | _ => Throw TypeError
  end.

(** [v.split(',')]: only strings have a [split] to call. *)
Definition split_commas (v : value) : result (list jsstring) :=
  match v with
  | VStr s => Ok (split comma s)
  | _ => Throw TypeError
  end.

(** ** The reshaping of upstream objects *)

(** The placeholder title of [/api/get-databases]. *)
Definition untitled : jsstring := js "Untitled Database".

(** The callback of [response.results.map] in [/api/get-databases]. *)
Definition database_summary (db : value) : result value :=
  let* id := get db (js "id") in
  let* title := get db (js "title") in
  let* first := get title (js "0") in
  let* text := get_opt first (js "plain_text") in
  Ok (VObj [(js "id", id);
            (js "title", or_else text (VStr untitled))]).

(** The helper [getProp] of [/api/get-posts], closed over [properties]. *)
Definition getProp (properties : value) (name type : jsstring)
    (subType : jsstring) : result value :=
  let* prop := get properties name in
  if negb (truthy prop) then Ok VNull
  else if JsString.eqb type (js "title") || JsString.eqb type (js "rich_text") then
    let* frags := get prop type in
    let* first := get frags (js "0") in
    let* text := get_opt first subType in
    Ok (or_else text (VStr empty))
  else if JsString.eqb type (js "url") then get prop (js "url")
  else if JsString.eqb type (js "date") then
    let* range := get prop (js "date") in
    get_opt range (js "start")
  else Ok VNull.

(** The default of the third parameter of [getProp]. *)
Definition plain_text : jsstring := js "plain_text".

(** Every key the handlers read: the fields of the request body, of the
    upstream answers and of the error caught. *)
Definition handler_keys : list jsstring :=
  map js ["notionToken"; "databaseId"; "pageId"; "newDate"; "results"; "id";
          "title"; "0"; "plain_text"; "properties"; "Headline"; "Media";
          "Caption"; "Scheduled Date"; "rich_text"; "url"; "date"; "start";
          "body"]%string.

(** The [media] expression of the record:
    [(getProp('Media', 'url') || '').split(',').map(u => u.trim()).filter(Boolean)] *)
Definition media_of (properties : value) : result value :=
  let* url := getProp properties (js "Media") (js "url") plain_text in
  let* segs := split_commas (or_else url (VStr empty)) in
  Ok (VArr (map VStr (filter (fun u => truthy (VStr u)) (map trim segs)))).

(** The object literal the callback of [/api/get-posts] returns:
    [{ id, headline, media, caption, date }] *)
Definition post_record (id headline media caption date : value) : value :=
  VObj [(js "id", id); (js "headline", headline); (js "media", media);
        (js "caption", caption); (js "date", date)].

(** The callback of [response.results.map] in [/api/get-posts]; the fields
    of the object literal are evaluated in the order they are written. *)
Definition post_of_page (page : value) : result value :=
  let* properties := get page (js "properties") in
  let* id := get page (js "id") in
  let* headline := getProp properties (js "Headline") (js "title") plain_text in
  let* media := media_of properties in
  let* caption := getProp properties (js "Caption") (js "rich_text") plain_text in
  let* date := getProp properties (js "Scheduled Date") (js "date") plain_text in
  Ok (post_record id headline media caption date).

(** The date property of a page as the upstream API documents it: an
    object whose [date] is null, or a range whose [start] is a string. *)
Definition date_property_well_formed (prop : value) : Prop :=
  truthy prop = true /\
  exists range,
    get prop (js "date") = Ok range /\
    (range = VNull \/ range = VUndef \/
     exists s, get range (js "start") = Ok (VStr s)).

(** ** The outside world *)

(** The methods of the Notion client the handlers call: [notion.search],
    [notion.databases.query], [notion.pages.update]. *)
Inductive api_method : Type :=
| search
| databases_query
| pages_update.

(** One outbound call: the [auth] the client was built with, the method and
    its argument object. *)
Record upstream_call : Type := Call {
  call_auth : value;
  call_method : api_method;
  call_args : value
}.

(** What [res.json] sends, with the status code in force. *)
Record response : Type := Response {
  resp_status : Z;
  resp_body : value
}.

(** The two listings of the server differ in the wording of two of the
    messages sent with status 500, and in nothing else the routes do. *)
Inductive revision : Type :=
| Compact
| Annotated.

Inductive route : Type :=
| GetDatabases
| GetPosts
| UpdatePostDate.

Definition route_path (r : route) : jsstring :=
  match r with
  | GetDatabases => js "/api/get-databases"
  | GetPosts => js "/api/get-posts"
  | UpdatePostDate => js "/api/update-post-date"
  end.

(** The body fields each route requires (the [if] that opens each handler). *)
Definition required_fields (r : route) : list jsstring :=
  match r with
  | GetDatabases => [js "notionToken"]
  | GetPosts => [js "notionToken"; js "databaseId"]
  | UpdatePostDate => [js "notionToken"; js "pageId"; js "newDate"]
  end.

Section Proxy.

(** The external system: its state, and what an awaited call settles to
    ([Ok]: the promise resolves; [Throw]: it rejects). *)
Variable upstream_state : Type.
Variable upstream :
  upstream_call -> upstream_state -> result value * upstream_state.

(** What a handler can observe and change: the external system, the
    outbound calls made so far, the lines written by [console.error], the
    status code of the response under construction and the responses
    sent. *)
Record world : Type := World {
  notion : upstream_state;
  calls : list upstream_call;
  console : list (jsstring * value);
  statusCode : Z;
  sent : list response
}.

Definition M (A : Type) : Type := world -> result A * world.

Definition ret {A : Type} (a : A) : M A := fun w => (Ok a, w).

Definition bind {A B : Type} (m : M A) (k : A -> M B) : M B :=
  fun w =>
    match m w with
    | (Ok a, w') => k a w'
    | (Throw e, w') => (Throw e, w')
    end.

Definition eval {A : Type} (r : result A) : M A := fun w => (r, w).

(** [try { body } catch (error) { handler }] *)
Definition try_catch {A : Type} (body : M A) (handler : js_error -> M A) : M A :=
  fun w =>
    match body w with
    | (Ok a, w') => (Ok a, w')
    | (Throw e, w') => handler e w'
    end.

(** [await notion.<method>(args)] on a client built with [auth]. *)
Definition await_notion (auth : value) (m : api_method) (args : value) : M value :=
  fun w =>
    let c := Call auth m args in
    let (settled, s') := upstream c (notion w) in
    (settled,
     World s' (calls w ++ [c]) (console w) (statusCode w) (sent w)).

(** [console.error(label, detail)] *)
Definition console_error (label : jsstring) (detail : value) : M unit :=
  fun w =>
    (Ok tt,
     World (notion w) (calls w) (console w ++ [(label, detail)])
           (statusCode w) (sent w)).

(** [res.status(code)] *)
Definition res_status (code : Z) : M unit :=
  fun w => (Ok tt, World (notion w) (calls w) (console w) code (sent w)).

(** [res.json(v)] *)
Definition res_json (v : value) : M unit :=
  fun w =>
    (Ok tt,
     World (notion w) (calls w) (console w) (statusCode w)
           (sent w ++ [Response (statusCode w) v])).

End Proxy.

Arguments World {upstream_state} notion calls console statusCode sent.
Arguments notion {upstream_state} w.
Arguments calls {upstream_state} w.
Arguments console {upstream_state} w.
Arguments statusCode {upstream_state} w.
Arguments sent {upstream_state} w.
Arguments ret {upstream_state A} a.
Arguments bind {upstream_state A B} m k.
Arguments eval {upstream_state A} r.
Arguments try_catch {upstream_state A} body handler.
Arguments await_notion {upstream_state} upstream auth m args.
Arguments console_error {upstream_state} label detail.
Arguments res_status {upstream_state} code.
Arguments res_json {upstream_state} v.

Declare Scope handler_scope.
Delimit Scope handler_scope with handler.
Notation "x <- m ;; k" := (bind m (fun x => k))
  (at level 100, m at next level, right associativity) : handler_scope.
Notation "m ;; k" := (bind m (fun _ => k))
  (at level 100, right associativity) : handler_scope.

(** ** Template literals *)

Section ToString.

Variable number_to_string : float -> jsstring.

(** ToString, as a template literal applies it to a substitution.  An
    array is joined with commas, [null] and [undefined] elements
    contributing nothing.  An object without a [toString] field of its own
    inherits the one that prints [[object Object]]; with such a field,
    which is data and cannot be called, the conversion throws. *)
Fixpoint to_string (v : value) : result jsstring :=
  match v with
  | VUndef => Ok (js "undefined")
  | VNull => Ok (js "null")
  | VBool true => Ok (js "true")
  | VBool false => Ok (js "false")
  | VNum x => Ok (number_to_string x)
  | VStr s => Ok s
  | VArr elems =>
      let* parts :=
        (fix each (l : list value) : result (list jsstring) :=
           match l with
           | [] => Ok []
           | e :: l' =>
               let* p := match e with
                         | VUndef | VNull => Ok empty
                         | _ => to_string e
                         end in
               let* ps := each l' in
               Ok (p :: ps)
           end) elems in
      Ok (join (js ",") parts)
  | VObj fields =>
      match lookup (js "toString") fields with
      | Some _ => Throw TypeError
      | None => Ok (js "[object Object]")
      end
  end.

End ToString.

(** ** The routes *)

Local Open Scope handler_scope.

Definition databases_failure (rev : revision) : jsstring :=
  match rev with
  | Compact => js "Failed to fetch databases from Notion."
  | Annotated =>
      js "Failed to fetch databases from Notion. Check your token and permissions."
  end.

Definition posts_failure (rev : revision) : jsstring :=
  match rev with
  | Compact => js "Failed to fetch posts from Notion."
  | Annotated =>
      js "Failed to fetch posts from Notion. Check database ID and ensure integration has access."
  end.

Definition update_failure (rev : revision) : jsstring :=
  match rev with
  | Compact | Annotated => js "Failed to update post date in Notion."
  end.

(** The argument of [notion.search]:
    [{ filter: { value: 'database', property: 'object' } }] *)
Definition search_filter : value :=
  VObj [(js "filter",
         VObj [(js "value", VStr (js "database"));
               (js "property", VStr (js "object"))])].

(** The argument of [notion.databases.query]:
    [{ database_id: databaseId,
       sorts: [{ property: 'Scheduled Date', direction: 'ascending' }] }] *)
Definition posts_query (databaseId : value) : value :=
  VObj [(js "database_id", databaseId);
        (js "sorts",
         VArr [VObj [(js "property", VStr (js "Scheduled Date"));
                     (js "direction", VStr (js "ascending"))]])].

(** The argument of [notion.pages.update]:
    [{ page_id: pageId,
       properties: { 'Scheduled Date': { date: { start: newDate } } } }] *)
Definition date_update (pageId newDate : value) : value :=
  VObj [(js "page_id", pageId);
        (js "properties",
         VObj [(js "Scheduled Date",
                VObj [(js "date", VObj [(js "start", newDate)])])])].

(** The message each route sends with status 500. *)
Definition failure_message (rev : revision) (r : route) : jsstring :=
  match r with
  | GetDatabases => databases_failure rev
  | GetPosts => posts_failure rev
  | UpdatePostDate => update_failure rev
  end.

(** What each route writes before the detail on the console. *)
Definition failure_label (r : route) : jsstring :=
  match r with
  | GetDatabases => js "Error fetching databases:"
  | GetPosts => js "Error fetching posts:"
  | UpdatePostDate => js "Error updating post date:"
  end.

(** [{ error: message }] *)
Definition error_object (message : jsstring) : value :=
  VObj [(js "error", VStr message)].

Section Routes.

Variable upstream_state : Type.
Variable upstream :
  upstream_call -> upstream_state -> result value * upstream_state.

(** Number::toString of the runtime, which template literals apply to a
    number. *)
Variable number_to_string : float -> jsstring.

(** Which listing's messages are sent. *)
Variable rev : revision.

(** [app.post('/api/get-databases', ...)] *)
Definition get_databases (req_body : value) : M upstream_state unit :=
  notionToken <- eval (get req_body (js "notionToken")) ;;
  if negb (truthy notionToken) then
    res_status 400 ;;
    res_json (error_object (js "Notion token is required."))
  else
    try_catch
      (response <-
         await_notion upstream notionToken search search_filter ;;
       databases <-
         eval (let* results := get response (js "results") in
               array_map database_summary results) ;;
       res_json databases)
      (fun error =>
         console_error (js "Error fetching databases:") (error_body error) ;;
         res_status 500 ;;
         res_json (error_object (databases_failure rev))).

(** [app.post('/api/get-posts', ...)] *)
Definition get_posts (req_body : value) : M upstream_state unit :=
  notionToken <- eval (get req_body (js "notionToken")) ;;
  databaseId <- eval (get req_body (js "databaseId")) ;;
  if negb (truthy notionToken) || negb (truthy databaseId) then
    res_status 400 ;;
    res_json (error_object (js "Notion token and Database ID are required."))
  else
    try_catch
      (response <-
         await_notion upstream notionToken databases_query
           (posts_query databaseId) ;;
       posts <-
         eval (let* results := get response (js "results") in
               array_map post_of_page results) ;;
       res_json posts)
      (fun error =>
         console_error (js "Error fetching posts:") (error_body error) ;;
         res_status 500 ;;
         res_json (error_object (posts_failure rev))).

(** The acknowledgement of a successful update:
    [{ success: true, message: `Post ${pageId} updated to ${newDate}` }] *)
Definition acknowledgement (pageId newDate : value) : result value :=
  let* p := to_string number_to_string pageId in
  let* d := to_string number_to_string newDate in
  Ok (VObj [(js "success", VBool true);
            (js "message",
             VStr (js "Post " ++ p ++ js " updated to " ++ d))]).

(** [app.post('/api/update-post-date', ...)] *)
Definition update_post_date (req_body : value) : M upstream_state unit :=
  notionToken <- eval (get req_body (js "notionToken")) ;;
  pageId <- eval (get req_body (js "pageId")) ;;
  newDate <- eval (get req_body (js "newDate")) ;;
  if negb (truthy notionToken) || negb (truthy pageId) || negb (truthy newDate) then
    res_status 400 ;;
    res_json (error_object (js "Token, Page ID, and new date are required."))
  else
    try_catch
      (_ <-
         await_notion upstream notionToken pages_update
           (date_update pageId newDate) ;;
       ack <- eval (acknowledgement pageId newDate) ;;
       res_json ack)
      (fun error =>
         console_error (js "Error updating post date:") (error_body error) ;;
         res_status 500 ;;
         res_json (error_object (update_failure rev))).

Definition handler (r : route) : value -> M upstream_state unit :=
  match r with
  | GetDatabases => get_databases
  | GetPosts => get_posts
  | UpdatePostDate => update_post_date
  end.

(** One request to a route: Express hands the handler a fresh response
    object, whose status code starts at 200. *)
Definition serve (r : route) (req_body : value) (w : world upstream_state)
  : result unit * world upstream_state :=
  handler r req_body
    (World (notion w) (calls w) (console w) 200 (sent w)).

(** The world after the validation of a route has failed. *)
Definition rejected (w : world upstream_state) (message : jsstring)
  : result unit * world upstream_state :=
  (Ok tt,
   World (notion w) (calls w) (console w) 400
         (sent w ++ [Response 400 (error_object message)])).

(** The world after the call [c] and what follows it in the [try] block
    have settled to [outcome]: the answer is sent, or the [catch] block
    runs. *)
Definition settled (r : route) (w : world upstream_state) (c : upstream_call)
    (s' : upstream_state) (outcome : result value)
  : result unit * world upstream_state :=
  match outcome with
  | Ok answer =>
      (Ok tt,
       World s' (calls w ++ [c]) (console w) (statusCode w)
             (sent w ++ [Response (statusCode w) answer]))
  | Throw e =>
      (Ok tt,
       World s' (calls w ++ [c])
             (console w ++ [(failure_label r, error_body e)]) 500
             (sent w ++ [Response 500 (error_object (failure_message rev r))]))
  end.

End Routes.

Arguments get_databases {upstream_state} upstream rev req_body.
Arguments get_posts {upstream_state} upstream rev req_body.
Arguments update_post_date {upstream_state} upstream number_to_string rev req_body.
Arguments handler {upstream_state} upstream number_to_string rev r.
Arguments serve {upstream_state} upstream number_to_string rev r req_body w.
Arguments rejected {upstream_state} w message.
Arguments settled {upstream_state} rev r w c s' outcome.

(** A required field that the body lacks, or holds as the empty string. *)
Definition absent_or_empty (req_body : value) (k : jsstring) : Prop :=
  get req_body k = Ok VUndef \/ get req_body k = Ok (VStr empty).

(** ** The routes at a glance *)

(** The message each route sends with status 400. *)
Definition missing_message (r : route) : jsstring :=
  match r with
  | GetDatabases => js "Notion token is required."
  | GetPosts => js "Notion token and Database ID are required."
  | UpdatePostDate => js "Token, Page ID, and new date are required."
  end.

(** The method of the client each route calls. *)
Definition method_of (r : route) : api_method :=
  match r with
  | GetDatabases => search
  | GetPosts => databases_query
  | UpdatePostDate => pages_update
  end.

(** The world as a handler finds it: that of [serve], the status code of
    the new response object at 200. *)
Definition fresh {upstream_state : Type} (w : world upstream_state)
  : world upstream_state :=
  World (notion w) (calls w) (console w) 200 (sent w).

(** What each handler does before its [try] block: it reads the required
    fields off the body, in the order of the destructuring, and tests
    them; [None] when the test fails, else the call the [try] block opens
    with. *)
Definition gate (r : route) (req_body : value) : result (option upstream_call) :=
  match r with
  | GetDatabases =>
      let* notionToken := get req_body (js "notionToken") in
      Ok (if truthy notionToken
          then Some (Call notionToken search search_filter)
          else None)
  | GetPosts =>
      let* notionToken := get req_body (js "notionToken") in
      let* databaseId := get req_body (js "databaseId") in
      Ok (if truthy notionToken && truthy databaseId
          then Some (Call notionToken databases_query (posts_query databaseId))
          else None)
  | UpdatePostDate =>
      let* notionToken := get req_body (js "notionToken") in
      let* pageId := get req_body (js "pageId") in
      let* newDate := get req_body (js "newDate") in
      Ok (if truthy notionToken && truthy pageId && truthy newDate
          then Some (Call notionToken pages_update (date_update pageId newDate))
          else None)
  end.

(** What each [try] block makes of the answer of its call, before sending
    it. *)
Definition answer_of (number_to_string : float -> jsstring) (r : route)
    (req_body answer : value) : result value :=
  match r with
  | GetDatabases =>
      let* results := get answer (js "results") in
      array_map database_summary results
  | GetPosts =>
      let* results := get answer (js "results") in
      array_map post_of_page results
  | UpdatePostDate =>
      let* pageId := get req_body (js "pageId") in
      let* newDate := get req_body (js "newDate") in
      acknowledgement number_to_string pageId newDate
  end.

(** The callback the two listing routes map over [response.results]. *)
Definition record_of (r : route) : option (value -> result value) :=
  match r with
  | GetDatabases => Some database_summary
  | GetPosts => Some post_of_page
  | UpdatePostDate => None
  end.

(** An evaluation that throws nothing but the runtime's TypeError. *)
Definition throws_only_type_error {A : Type} (r : result A) : Prop :=
  forall e, r = Throw e -> e = TypeError.

(** A URL as [media] holds them: not empty, free of commas, no white space
    at either end. *)
Definition clean_url (u : jsstring) : bool :=
  match u with
  | [] => false
  | c :: _ =>
      negb (is_space c) && negb (is_space (last u c))
      && negb (existsb (N.eqb comma) u)
  end.

(** ** A sample external system

    An upstream that counts the calls it has received, and answers as
    told; the runtime's printing of numbers is not exercised by the
    examples. *)

Definition counting_upstream (answer : result value)
  : upstream_call -> nat -> result value * nat :=
  fun _ n => (answer, S n).

Definition unused_number_to_string : float -> jsstring := fun _ => js "0".

Definition idle : world nat := World 0 [] [] 200 [].

(** ** The [media] field as the specification words it

    "Splitting on commas, trimming whitespace from each segment, and
    discarding empty segments", written independently of the methods of the
    language the route calls; compared with [media_of] below. *)

Module MediaSpec.

(** Splitting on commas: the runs between commas, left to right, the run
    under construction held reversed in [run]. *)
Fixpoint segments_from (run : jsstring) (s : jsstring) : list jsstring :=
  match s with
  | [] => [rev run]
  | c :: s' =>
      if N.eqb c comma then rev run :: segments_from [] s'
      else segments_from (c :: run) s'
  end.

Definition segments (s : jsstring) : list jsstring := segments_from [] s.

(** Trimming: white space removed at the start and at the end. *)
Fixpoint strip_start (s : jsstring) : jsstring :=
  match s with
  | [] => []
  | c :: s' => if is_space c then strip_start s' else c :: s'
  end.

Fixpoint strip_end (s : jsstring) : jsstring :=
  match s with
  | [] => []
  | c :: s' =>
      match strip_end s' with
      | [] => if is_space c then [] else [c]
      | t => c :: t
      end
  end.

Definition strip (s : jsstring) : jsstring := strip_end (strip_start s).

(** Discarding empty segments. *)
Fixpoint discard_empty (segs : list jsstring) : list jsstring :=
  match segs with
  | [] => []
  | [] :: segs' => discard_empty segs'
  | seg :: segs' => seg :: discard_empty segs'
  end.

Definition media_spec (url : jsstring) : list jsstring :=
  discard_empty (map strip (segments url)).

End MediaSpec.

(** * Properties *)

(** ** Strings *)

Lemma jsstring_eqb_eq (s t : jsstring) : JsString.eqb s t = true <-> s = t.
Proof.
  revert t. induction s as [|c s IH]; intros [|d t]; simpl; split;
    try congruence; try reflexivity.
  - intros H. apply andb_prop in H as [Hc Hs].
    apply N.eqb_eq in Hc. apply IH in Hs. congruence.
  - intros H. injection H as -> ->.
    rewrite N.eqb_refl. simpl. now apply IH.
Qed.

Lemma split_not_nil (sep : N) (s : jsstring) : split sep s <> [].
Proof.
  destruct s as [|c s]; simpl; [discriminate|].
  destruct (N.eqb c sep); [discriminate|].
  destruct (split sep s); discriminate.
Qed.

(** Joining the segments with the separator gives the string back. *)
Lemma join_split (sep : N) (s : jsstring) : join [sep] (split sep s) = s.
Proof.
  induction s as [|c s IH]; simpl; [reflexivity|].
  destruct (N.eqb_spec c sep) as [->|Hne].
  - pose proof (split_not_nil sep s) as Hnil.
    destruct (split sep s) as [|seg segs]; [contradiction|].
    simpl in *. now rewrite IH.
  - pose proof (split_not_nil sep s) as Hnil.
    destruct (split sep s) as [|seg segs]; [contradiction|].
    destruct segs; simpl in *; now rewrite <- IH.
Qed.

(** No segment holds the separator. *)
Lemma split_no_sep (sep : N) (s : jsstring) :
  Forall (fun seg => ~ In sep seg) (split sep s).
Proof.
  induction s as [|c s IH]; simpl.
  - constructor; [intros []|constructor].
  - destruct (N.eqb_spec c sep) as [->|Hne].
    + constructor; [intros []|exact IH].
    + pose proof (split_not_nil sep s) as Hnil.
      destruct (split sep s) as [|seg segs]; [contradiction|].
      inversion IH as [|? ? Hseg Hsegs]; subst.
      constructor; [|exact Hsegs].
      intros [Heq|Hin]; [congruence|contradiction].
Qed.

Lemma trimStart_snoc (s : jsstring) (c : N) :
  trimStart (s ++ [c]) =
  match trimStart s with
  | [] => if is_space c then [] else [c]
  | t => t ++ [c]
  end.
Proof.
  induction s as [|d s IH]; simpl.
  - destruct (is_space c); reflexivity.
  - destruct (is_space d); [exact IH|reflexivity].
Qed.

(** What [trim] removes is white space, at the two ends. *)
Lemma trimStart_decompose (s : jsstring) :
  exists a, s = a ++ trimStart s /\ forallb is_space a = true.
Proof.
  induction s as [|c s [a [Hs Ha]]]; simpl.
  - exists []. split; reflexivity.
  - destruct (is_space c) eqn:Hc.
    + exists (c :: a). simpl. rewrite Hc, Ha. split; [congruence|reflexivity].
    + exists []. split; reflexivity.
Qed.

Lemma trim_decompose (s : jsstring) :
  exists a b,
    s = a ++ trim s ++ b /\
    forallb is_space a = true /\ forallb is_space b = true.
Proof.
  destruct (trimStart_decompose s) as [a [Hs Ha]].
  destruct (trimStart_decompose (rev (trimStart s))) as [b [Hr Hb]].
  exists a, (rev b). repeat split; [|exact Ha|].
  - unfold trim, trimEnd. rewrite <- rev_app_distr, <- Hr, rev_involutive.
    exact Hs.
  - rewrite forallb_forall in *. intros x Hx. apply Hb. now apply in_rev.
Qed.

(** What [trim] keeps neither starts nor ends with white space. *)
Lemma trimStart_head (s : jsstring) (c : N) (t : jsstring) :
  trimStart s = c :: t -> is_space c = false.
Proof.
  induction s as [|d s IH]; simpl; [discriminate|].
  destruct (is_space d) eqn:Hd; [exact IH|].
  intros H. injection H as -> _. exact Hd.
Qed.

Lemma trim_head (s : jsstring) (c : N) (t : jsstring) :
  trim s = c :: t -> is_space c = false.
Proof.
  unfold trim, trimEnd. intros H.
  destruct (trimStart s) as [|d u] eqn:Hs; [discriminate|].
  pose proof (trimStart_head _ _ _ Hs) as Hd.
  (* the first unit of [d :: u] survives the trimming of the end *)
  revert H. simpl. rewrite trimStart_snoc.
  destruct (trimStart (rev u)) as [|e v] eqn:Hu.
  - rewrite Hd. simpl. intros H. injection H as <- _. exact Hd.
  - rewrite rev_app_distr. simpl. intros H. injection H as <- _. exact Hd.
Qed.

Lemma trim_last (s t : jsstring) (c : N) :
  trim s = t ++ [c] -> is_space c = false.
Proof.
  unfold trim, trimEnd. intros H.
  apply (f_equal (@rev N)) in H. rewrite rev_involutive, rev_app_distr in H.
  exact (trimStart_head _ _ _ H).
Qed.

(** The specification's splitting and trimming are the methods' [split]
    and [trim]. *)
Lemma segments_from_split (run s : jsstring) :
  MediaSpec.segments_from run s =
  match split comma s with
  | seg :: segs => (rev run ++ seg) :: segs
  | [] => [rev run]
  end.
Proof.
  revert run. induction s as [|c s IH]; intros run; simpl.
  - now rewrite app_nil_r.
  - destruct (N.eqb c comma).
    + rewrite IH, app_nil_r. simpl.
      pose proof (split_not_nil comma s) as Hnil.
      destruct (split comma s); [contradiction|reflexivity].
    + rewrite IH. simpl.
      pose proof (split_not_nil comma s) as Hnil.
      destruct (split comma s); [contradiction|].
      now rewrite <- app_assoc.
Qed.

Lemma segments_split (s : jsstring) : MediaSpec.segments s = split comma s.
Proof.
  unfold MediaSpec.segments. rewrite segments_from_split.
  pose proof (split_not_nil comma s) as Hnil.
  destruct (split comma s); [contradiction|reflexivity].
Qed.

Lemma strip_start_trimStart (s : jsstring) : MediaSpec.strip_start s = trimStart s.
Proof. induction s as [|c s IH]; simpl; [reflexivity|]. now rewrite IH. Qed.

Lemma strip_end_trimEnd (s : jsstring) : MediaSpec.strip_end s = trimEnd s.
Proof.
  unfold trimEnd. induction s as [|c s IH]; simpl; [reflexivity|].
  rewrite trimStart_snoc, IH.
  destruct (trimStart (rev s)) as [|d t]; simpl.
  - destruct (is_space c); reflexivity.
  - rewrite rev_app_distr. simpl.
    destruct (rev t ++ [d]) eqn:Hrt; [|reflexivity].
    now destruct (rev t).
Qed.

Lemma strip_trim (s : jsstring) : MediaSpec.strip s = trim s.
Proof.
  unfold MediaSpec.strip, trim.
  now rewrite strip_end_trimEnd, strip_start_trimStart.
Qed.

Lemma discard_empty_filter (segs : list jsstring) :
  MediaSpec.discard_empty segs = filter (fun u => truthy (VStr u)) segs.
Proof.
  induction segs as [|[|c seg] segs IH]; simpl; [reflexivity|exact IH|].
  now rewrite IH.
Qed.

Lemma media_spec_methods (url : jsstring) :
  MediaSpec.media_spec url =
  filter (fun u => truthy (VStr u)) (map trim (split comma url)).
Proof.
  unfold MediaSpec.media_spec.
  rewrite discard_empty_filter, segments_split.
  f_equal. apply map_ext. exact strip_trim.
Qed.

(** No empty string survives in the specification's result. *)
Lemma media_spec_no_empty (url : jsstring) : ~ In [] (MediaSpec.media_spec url).
Proof.
  rewrite media_spec_methods. intros H. apply filter_In in H as [_ H].
  discriminate.
Qed.

(** ** Member access *)

(** No key the handlers read is a name objects inherit. *)
Lemma handler_keys_are_data : forallb data_key handler_keys = true.
Proof. vm_compute. reflexivity. Qed.

Lemma get_object (fields : list (jsstring * value)) (k : jsstring) :
  get (VObj fields) k =
  match lookup k fields with Some e => Ok e | None => Ok VUndef end.
Proof. reflexivity. Qed.

(** A value that can be read once can be read at any key. *)
Lemma get_total (v : value) (k : jsstring) (x : value) :
  get v k = Ok x -> forall k', exists x', get v k' = Ok x'.
Proof.
  intros H k'. destruct v; simpl in *; try discriminate; eauto.
  - destruct (array_index k') as [i|]; eauto.
    destruct (nth_error s (N.to_nat i)); eauto.
  - destruct (array_index k') as [i|]; eauto.
    destruct (nth_error elems (N.to_nat i)); eauto.
  - destruct (lookup k' fields); eauto.
Qed.

Lemma get_opt_of_get (v : value) (k : jsstring) (x : value) :
  get v k = Ok x -> get_opt v k = Ok x.
Proof. destruct v; simpl; congruence. Qed.

Lemma mapM_Forall2 (A B : Type) (f : A -> result B) (l : list A) (out : list B) :
  Eval.mapM f l = Ok out <-> Forall2 (fun a b => f a = Ok b) l out.
Proof.
  revert out. induction l as [|a l IH]; intros out; simpl.
  - split; [intros H; injection H as <-; constructor|].
    intros H. inversion H. reflexivity.
  - destruct (f a) as [b|e] eqn:Hfa; simpl.
    + destruct (Eval.mapM f l) as [bs|e] eqn:Hl; simpl.
      * split.
        -- intros H. injection H as <-. constructor; [exact Hfa|now apply IH].
        -- intros H. inversion H as [|? b' ? bs' Hb Hbs]; subst.
           apply IH in Hbs. congruence.
      * split; [discriminate|].
        intros H. inversion H as [|? b' ? bs' Hb Hbs]; subst.
        apply IH in Hbs. discriminate.
    + split; [discriminate|].
      intros H. inversion H; subst. congruence.
Qed.

(** ** The record of a page *)

Lemma post_of_page_properties (page properties : value) :
  get page (js "properties") = Ok properties ->
  post_of_page page =
  let* id := get page (js "id") in
  let* headline := getProp properties (js "Headline") (js "title") plain_text in
  let* media := media_of properties in
  let* caption := getProp properties (js "Caption") (js "rich_text") plain_text in
  let* date := getProp properties (js "Scheduled Date") (js "date") plain_text in
  Ok (post_record id headline media caption date).
Proof. intros H. unfold post_of_page. now rewrite H. Qed.

(** Once [media] is known, the record is the one with that [media]. *)
Lemma post_of_page_media (page properties media : value) :
  get page (js "properties") = Ok properties ->
  media_of properties = Ok media ->
  post_of_page page =
  let* id := get page (js "id") in
  let* headline := getProp properties (js "Headline") (js "title") plain_text in
  let* caption := getProp properties (js "Caption") (js "rich_text") plain_text in
  let* date := getProp properties (js "Scheduled Date") (js "date") plain_text in
  Ok (post_record id headline media caption date).
Proof.
  intros Hp Hm. rewrite (post_of_page_properties _ _ Hp), Hm.
  destruct (get page (js "id")); simpl; [|reflexivity].
  destruct (getProp properties (js "Headline") (js "title") plain_text);
    reflexivity.
Qed.

(** The first test of [getProp]: a property that is absent, or falsy. *)
Lemma getProp_falsy (properties prop : value) (name type subType : jsstring) :
  get properties name = Ok prop -> truthy prop = false ->
  getProp properties name type subType = Ok VNull.
Proof. intros Hg Ht. unfold getProp. now rewrite Hg; simpl; rewrite Ht. Qed.

(** [getProp] on a property that is there. *)
Lemma getProp_present (properties prop : value) (name type subType : jsstring) :
  get properties name = Ok prop -> truthy prop = true ->
  getProp properties name type subType =
  if JsString.eqb type (js "title") || JsString.eqb type (js "rich_text") then
    let* frags := get prop type in
    let* first := get frags (js "0") in
    let* text := get_opt first subType in
    Ok (or_else text (VStr empty))
  else if JsString.eqb type (js "url") then get prop (js "url")
  else if JsString.eqb type (js "date") then
    let* range := get prop (js "date") in
    get_opt range (js "start")
  else Ok VNull.
Proof. intros Hg Ht. unfold getProp. now rewrite Hg; simpl; rewrite Ht. Qed.

(** C2: for a record of list_posts, the helper returns null when the named
    property is absent from the property bag; a record without "Headline"
    has [headline: null], not the empty string. *)
Theorem absent_property_is_null (fields : list (jsstring * value)) :
  (forall name type subType,
      data_key name = true ->
      lookup name fields = None ->
      getProp (VObj fields) name type subType = Ok VNull) /\
  (forall page,
      get page (js "properties") = Ok (VObj fields) ->
      lookup (js "Headline") fields = None ->
      post_of_page page =
      let* id := get page (js "id") in
      let* media := media_of (VObj fields) in
      let* caption :=
        getProp (VObj fields) (js "Caption") (js "rich_text") plain_text in
      let* date :=
        getProp (VObj fields) (js "Scheduled Date") (js "date") plain_text in
      Ok (VObj [(js "id", id); (js "headline", VNull); (js "media", media);
                (js "caption", caption); (js "date", date)])).
Proof.
  assert (Habsent : forall name type subType,
             data_key name = true ->
             lookup name fields = None ->
             getProp (VObj fields) name type subType = Ok VNull).
  { intros name type subType _ Hnone.
    apply getProp_falsy with (prop := VUndef); [|reflexivity].
    now rewrite get_object, Hnone. }
  split; [exact Habsent|].
  intros page Hprops Hnone.
  rewrite (post_of_page_properties _ _ Hprops).
  rewrite (Habsent (js "Headline") (js "title") plain_text eq_refl Hnone).
  now destruct (get page (js "id")).
Qed.

Lemma absent_property_is_null_witness :
  let fields := [(js "Media", VObj [(js "url", VStr (js "http://a"))])] in
  let page := VObj [(js "id", VStr (js "p1")); (js "properties", VObj fields)] in
  data_key (js "Headline") = true /\
  lookup (js "Headline") fields = None /\
  get page (js "properties") = Ok (VObj fields) /\
  getProp (VObj fields) (js "Headline") (js "title") plain_text = Ok VNull /\
  post_of_page page =
  Ok (VObj [(js "id", VStr (js "p1")); (js "headline", VNull);
            (js "media", VArr [VStr (js "http://a")]);
            (js "caption", VNull); (js "date", VNull)]).
Proof.
  intros fields page.
  split; [reflexivity|]. split; [reflexivity|]. split; [reflexivity|]. split.
  - apply (proj1 (absent_property_is_null fields)); reflexivity.
  - rewrite (proj2 (absent_property_is_null fields) page);
      [vm_compute|..]; reflexivity.
Defined.

(** C3: for a present property of kind [title] or [rich_text], the helper
    returns the plain text of the first fragment, and the empty string (not
    null) when there is no fragment. *)
Theorem text_property_first_fragment
    (properties prop : value) (name type : jsstring) (frags : list value) :
  type = js "title" \/ type = js "rich_text" ->
  get properties name = Ok prop ->
  truthy prop = true ->
  get prop type = Ok (VArr frags) ->
  match frags with
  | [] => getProp properties name type plain_text = Ok (VStr empty)
  | first :: _ =>
      forall s, get first plain_text = Ok (VStr s) ->
                getProp properties name type plain_text = Ok (VStr s)
  end.
Proof.
  intros Htype Hget Hpresent Hfrags.
  rewrite (getProp_present _ _ _ _ _ Hget Hpresent).
  assert (Hkind : JsString.eqb type (js "title")
                  || JsString.eqb type (js "rich_text") = true)
    by (destruct Htype as [-> | ->]; reflexivity).
  rewrite Hkind, Hfrags.
  destruct frags as [|first rest]; [reflexivity|].
  intros s Htext.
  change ((let* text := get_opt first plain_text in
           Ok (or_else text (VStr empty))) = Ok (VStr s)).
  rewrite (get_opt_of_get _ _ _ Htext).
  now destruct s.
Qed.

Lemma text_property_first_fragment_witness :
  let title := VArr [VObj [(js "plain_text", VStr (js "Launch"))];
                     VObj [(js "plain_text", VStr (js " day"))]] in
  let prop := VObj [(js "type", VStr (js "title")); (js "title", title)] in
  let properties := VObj [(js "Headline", prop)] in
  (js "title" = js "title" \/ js "title" = js "rich_text") /\
  get properties (js "Headline") = Ok prop /\
  truthy prop = true /\
  get prop (js "title") = Ok title /\
  getProp properties (js "Headline") (js "title") plain_text
  = Ok (VStr (js "Launch")).
Proof.
  intros title prop properties.
  assert (Hkind : js "title" = js "title" \/ js "title" = js "rich_text")
    by (left; reflexivity).
  repeat (split; [first [exact Hkind | reflexivity]|]).
  exact (text_property_first_fragment properties prop (js "Headline")
           (js "title") _ Hkind eq_refl eq_refl eq_refl (js "Launch") eq_refl).
Defined.

(** C5 as the specification states it fails on a date property as Notion
    returns it when no date is set, [{ id: 'a1', type: 'date', date: null }]:
    the property is present, its date range object is absent, and the
    helper returns [undefined], which is neither null nor a string; so does
    the [date] of the record. *)
Lemma date_without_range_is_not_null :
  let prop := VObj [(js "id", VStr (js "a1")); (js "type", VStr (js "date"));
                    (js "date", VNull)] in
  let properties := VObj [(js "Scheduled Date", prop)] in
  let page := VObj [(js "id", VStr (js "p1")); (js "properties", properties)] in
  get properties (js "Scheduled Date") = Ok prop /\
  truthy prop = true /\
  get prop (js "date") = Ok VNull /\
  getProp properties (js "Scheduled Date") (js "date") plain_text = Ok VUndef /\
  (getProp properties (js "Scheduled Date") (js "date") plain_text = Ok VNull
   -> False) /\
  post_of_page page
  = Ok (post_record (VStr (js "p1")) VNull (VArr []) VNull VUndef).
Proof.
  intros prop properties page.
  repeat (split; [reflexivity|]).
  split; [|reflexivity].
  vm_compute. discriminate.
Qed.

(** [getProp] at kind [date], on a property that is there. *)
Lemma getProp_date_present (properties prop : value) (name : jsstring) :
  get properties name = Ok prop ->
  truthy prop = true ->
  getProp properties name (js "date") plain_text =
  let* range := get prop (js "date") in get_opt range (js "start").
Proof.
  intros Hget Hpresent.
  now rewrite (getProp_present _ _ _ _ _ Hget Hpresent).
Qed.

Lemma getProp_date_start (properties prop range : value) (name s : jsstring) :
  get properties name = Ok prop ->
  truthy prop = true ->
  get prop (js "date") = Ok range ->
  get range (js "start") = Ok (VStr s) ->
  getProp properties name (js "date") plain_text = Ok (VStr s).
Proof.
  intros Hget Hpresent Hrange Hstart.
  rewrite (getProp_date_present _ _ _ Hget Hpresent), Hrange.
  exact (get_opt_of_get _ _ _ Hstart).
Qed.

Lemma getProp_date_no_range (properties prop : value) (name : jsstring) :
  get properties name = Ok prop ->
  truthy prop = true ->
  get prop (js "date") = Ok VNull \/ get prop (js "date") = Ok VUndef ->
  getProp properties name (js "date") plain_text = Ok VUndef.
Proof.
  intros Hget Hpresent Hrange.
  rewrite (getProp_date_present _ _ _ Hget Hpresent).
  destruct Hrange as [-> | ->]; reflexivity.
Qed.

(** C5, as the code has it: for a present property of kind [date], the
    helper returns the start date of the date range object, and
    [undefined] (not null) when the date range object is null or missing;
    so the [date] of a record whose date property is absent or well formed
    is a string, null (property absent) or [undefined] (no date range). *)
Theorem date_property_start_or_undefined :
  (forall properties prop name range s,
      get properties name = Ok prop ->
      truthy prop = true ->
      get prop (js "date") = Ok range ->
      get range (js "start") = Ok (VStr s) ->
      getProp properties name (js "date") plain_text = Ok (VStr s)) /\
  (forall properties prop name,
      get properties name = Ok prop ->
      truthy prop = true ->
      get prop (js "date") = Ok VNull \/ get prop (js "date") = Ok VUndef ->
      getProp properties name (js "date") plain_text = Ok VUndef) /\
  (forall fields,
      match lookup (js "Scheduled Date") fields with
      | None => True
      | Some prop => date_property_well_formed prop
      end ->
      exists date,
        getProp (VObj fields) (js "Scheduled Date") (js "date") plain_text
        = Ok date /\
        (date = VNull \/ date = VUndef \/ exists s, date = VStr s)).
Proof.
  split; [intros; eapply getProp_date_start; eassumption|].
  split; [intros; eapply getProp_date_no_range; eassumption|].
  intros fields.
  destruct (lookup (js "Scheduled Date") fields) as [prop|] eqn:Hlook.
  - intros [Hpresent [range [Hrange Hcases]]].
    assert (Hget : get (VObj fields) (js "Scheduled Date") = Ok prop)
      by now rewrite get_object, Hlook.
    destruct Hcases as [->|[->|[s Hstart]]].
    + exists VUndef. split; [|tauto].
      eapply getProp_date_no_range; eauto.
    + exists VUndef. split; [|tauto].
      eapply getProp_date_no_range; eauto.
    + exists (VStr s). split; [|eauto].
      eapply getProp_date_start; eassumption.
  - intros _. exists VNull. split; [|tauto].
    apply getProp_falsy with (prop := VUndef); [|reflexivity].
    now rewrite get_object, Hlook.
Qed.

Lemma date_property_start_or_undefined_witness :
  let range := VObj [(js "start", VStr (js "2024-05-01")); (js "end", VNull)] in
  let prop := VObj [(js "type", VStr (js "date")); (js "date", range)] in
  let unset := VObj [(js "type", VStr (js "date")); (js "date", VNull)] in
  (get (VObj [(js "Scheduled Date", prop)]) (js "Scheduled Date") = Ok prop /\
   truthy prop = true /\
   get prop (js "date") = Ok range /\
   get range (js "start") = Ok (VStr (js "2024-05-01")) /\
   getProp (VObj [(js "Scheduled Date", prop)]) (js "Scheduled Date")
     (js "date") plain_text
   = Ok (VStr (js "2024-05-01"))) /\
  (get (VObj [(js "Scheduled Date", unset)]) (js "Scheduled Date") = Ok unset /\
   truthy unset = true /\
   get unset (js "date") = Ok VNull /\
   getProp (VObj [(js "Scheduled Date", unset)]) (js "Scheduled Date")
     (js "date") plain_text
   = Ok VUndef).
Proof.
  intros range prop unset. split.
  - repeat (split; [reflexivity|]).
    exact (proj1 date_property_start_or_undefined
             (VObj [(js "Scheduled Date", prop)]) prop (js "Scheduled Date")
             range (js "2024-05-01") eq_refl eq_refl eq_refl eq_refl).
  - repeat (split; [reflexivity|]).
    exact (proj1 (proj2 date_property_start_or_undefined)
             (VObj [(js "Scheduled Date", unset)]) unset (js "Scheduled Date")
             eq_refl eq_refl (or_introl eq_refl)).
Defined.

(** ** The [media] of a record *)

Lemma getProp_url_present (properties prop : value) (name : jsstring) :
  get properties name = Ok prop ->
  truthy prop = true ->
  getProp properties name (js "url") plain_text = get prop (js "url").
Proof.
  intros Hget Hpresent.
  now rewrite (getProp_present _ _ _ _ _ Hget Hpresent).
Qed.

(** [media] when [getProp('Media', 'url')] is a string. *)
Lemma media_of_string (properties : value) (url : jsstring) :
  getProp properties (js "Media") (js "url") plain_text = Ok (VStr url) ->
  media_of properties = Ok (VArr (map VStr (MediaSpec.media_spec url))).
Proof.
  intros Hurl. unfold media_of. rewrite Hurl, media_spec_methods.
  now destruct url.
Qed.

(** [media] when [getProp('Media', 'url')] is null: [''] is split instead. *)
Lemma media_of_null (properties : value) :
  getProp properties (js "Media") (js "url") plain_text = Ok VNull ->
  media_of properties = Ok (VArr []).
Proof. intros Hurl. unfold media_of. now rewrite Hurl. Qed.

(** C4: the [media] of a record is the "Media" URL string split on commas,
    each segment trimmed of white space, the empty segments discarded; for
    ["http://a, http://b ,"] it is [["http://a", "http://b"]]. *)
Theorem media_split_trim_discard (properties prop : value) (url : jsstring) :
  get properties (js "Media") = Ok prop ->
  truthy prop = true ->
  get prop (js "url") = Ok (VStr url) ->
  media_of properties = Ok (VArr (map VStr (MediaSpec.media_spec url))) /\
  (forall page,
      get page (js "properties") = Ok properties ->
      post_of_page page =
      let* id := get page (js "id") in
      let* headline := getProp properties (js "Headline") (js "title") plain_text in
      let* caption := getProp properties (js "Caption") (js "rich_text") plain_text in
      let* date := getProp properties (js "Scheduled Date") (js "date") plain_text in
      Ok (VObj [(js "id", id); (js "headline", headline);
                (js "media", VArr (map VStr (MediaSpec.media_spec url)));
                (js "caption", caption); (js "date", date)])) /\
  (url = js "http://a, http://b ," ->
   media_of properties = Ok (VArr [VStr (js "http://a"); VStr (js "http://b")])).
Proof.
  intros Hget Hpresent Hurl.
  assert (Hmedia : media_of properties
                   = Ok (VArr (map VStr (MediaSpec.media_spec url)))).
  { apply media_of_string.
    now rewrite (getProp_url_present _ _ _ Hget Hpresent). }
  split; [exact Hmedia|]. split.
  - intros page Hprops. exact (post_of_page_media _ _ _ Hprops Hmedia).
  - intros ->. rewrite Hmedia. reflexivity.
Qed.

Lemma media_split_trim_discard_witness :
  let prop := VObj [(js "type", VStr (js "url"));
                    (js "url", VStr (js "http://a, http://b ,"))] in
  let properties := VObj [(js "Media", prop)] in
  get properties (js "Media") = Ok prop /\
  truthy prop = true /\
  get prop (js "url") = Ok (VStr (js "http://a, http://b ,")) /\
  media_of properties = Ok (VArr [VStr (js "http://a"); VStr (js "http://b")]) /\
  post_of_page (VObj [(js "id", VStr (js "p1")); (js "properties", properties)])
  = Ok (VObj [(js "id", VStr (js "p1")); (js "headline", VNull);
              (js "media", VArr [VStr (js "http://a"); VStr (js "http://b")]);
              (js "caption", VNull); (js "date", VNull)]).
Proof.
  intros prop properties.
  pose proof (media_split_trim_discard properties prop
                (js "http://a, http://b ,") eq_refl eq_refl eq_refl)
    as [_ [Hrecord Hexample]].
  split; [reflexivity|]. split; [reflexivity|]. split; [reflexivity|].
  split.
  - exact (Hexample eq_refl).
  - rewrite (Hrecord (VObj [(js "id", VStr (js "p1"));
                            (js "properties", properties)]) eq_refl).
    reflexivity.
Defined.

(** C9: when the "Media" property is absent, or its URL is null, the
    [media] of the record is the empty sequence. *)
Theorem media_absent_or_null_is_empty (properties : value) :
  (exists fields,
      properties = VObj fields /\ lookup (js "Media") fields = None) \/
  (exists prop,
      get properties (js "Media") = Ok prop /\ truthy prop = true /\
      get prop (js "url") = Ok VNull) ->
  media_of properties = Ok (VArr []) /\
  (forall page,
      get page (js "properties") = Ok properties ->
      post_of_page page =
      let* id := get page (js "id") in
      let* headline := getProp properties (js "Headline") (js "title") plain_text in
      let* caption := getProp properties (js "Caption") (js "rich_text") plain_text in
      let* date := getProp properties (js "Scheduled Date") (js "date") plain_text in
      Ok (VObj [(js "id", id); (js "headline", headline);
                (js "media", VArr []);
                (js "caption", caption); (js "date", date)])).
Proof.
  intros Hcases.
  assert (Hmedia : media_of properties = Ok (VArr [])).
  { apply media_of_null.
    destruct Hcases as [[fields [-> Hnone]]|[prop [Hget [Hpresent Hurl]]]].
    - apply getProp_falsy with (prop := VUndef); [|reflexivity].
      now rewrite get_object, Hnone.
    - now rewrite (getProp_url_present _ _ _ Hget Hpresent). }
  split; [exact Hmedia|].
  intros page Hprops. exact (post_of_page_media _ _ _ Hprops Hmedia).
Qed.

Lemma media_absent_or_null_is_empty_witness :
  let prop := VObj [(js "type", VStr (js "url")); (js "url", VNull)] in
  let properties := VObj [(js "Media", prop)] in
  (get properties (js "Media") = Ok prop /\ truthy prop = true /\
   get prop (js "url") = Ok VNull) /\
  media_of properties = Ok (VArr []) /\
  (lookup (js "Media") [] = None /\ media_of (VObj []) = Ok (VArr [])).
Proof.
  intros prop properties.
  split; [repeat split|]. split.
  - apply (media_absent_or_null_is_empty properties). right.
    exists prop. repeat split.
  - split; [reflexivity|].
    apply (media_absent_or_null_is_empty (VObj [])). left.
    exists []. split; reflexivity.
Defined.

(** ** The summary of a database *)



(** ** The routes, run *)

Section RoutesRun.

Variable upstream_state : Type.
Variable upstream :
  upstream_call -> upstream_state -> result value * upstream_state.
Variable number_to_string : float -> jsstring.
Variable rev : revision.

Lemma get_databases_run (req_body : value) (w : world upstream_state) :
  get_databases upstream rev req_body w =
  match get req_body (js "notionToken") with
  | Throw e => (Throw e, w)
  | Ok notionToken =>
      if truthy notionToken then
        let c := Call notionToken search search_filter in
        settled rev GetDatabases w c (snd (upstream c (notion w)))
          (let* response := fst (upstream c (notion w)) in
           let* results := get response (js "results") in
           array_map database_summary results)
      else rejected w (js "Notion token is required.")
  end.
Proof.
  unfold get_databases, bind, eval, try_catch, await_notion, rejected, settled.
  destruct (get req_body (js "notionToken")) as [notionToken|e]; [|reflexivity].
  destruct (truthy notionToken); [|reflexivity].
  cbn [negb orb andb]. cbv beta iota zeta.
  destruct (upstream _ (notion w)) as [[response|e] s']; [|reflexivity].
  cbn [fst snd Eval.bind calls console statusCode sent notion].
  destruct (get response (js "results")) as [results|e]; [|reflexivity].
  cbn [Eval.bind].
  destruct (array_map database_summary results); reflexivity.
Qed.

Lemma get_posts_run (req_body : value) (w : world upstream_state) :
  get_posts upstream rev req_body w =
  match get req_body (js "notionToken") with
  | Throw e => (Throw e, w)
  | Ok notionToken =>
      match get req_body (js "databaseId") with
      | Throw e => (Throw e, w)
      | Ok databaseId =>
          if truthy notionToken && truthy databaseId then
            let c := Call notionToken databases_query (posts_query databaseId) in
            settled rev GetPosts w c (snd (upstream c (notion w)))
              (let* response := fst (upstream c (notion w)) in
               let* results := get response (js "results") in
               array_map post_of_page results)
          else rejected w (js "Notion token and Database ID are required.")
      end
  end.
Proof.
  unfold get_posts, bind, eval, try_catch, await_notion, rejected, settled.
  destruct (get req_body (js "notionToken")) as [notionToken|e]; [|reflexivity].
  destruct (get req_body (js "databaseId")) as [databaseId|e]; [|reflexivity].
  destruct (truthy notionToken), (truthy databaseId); try reflexivity.
  cbn [negb orb andb]. cbv beta iota zeta.
  destruct (upstream _ (notion w)) as [[response|e] s']; [|reflexivity].
  cbn [fst snd Eval.bind calls console statusCode sent notion negb orb andb].
  destruct (get response (js "results")) as [results|e]; [|reflexivity].
  cbn [Eval.bind].
  destruct (array_map post_of_page results); reflexivity.
Qed.

Lemma update_post_date_run (req_body : value) (w : world upstream_state) :
  update_post_date upstream number_to_string rev req_body w =
  match get req_body (js "notionToken") with
  | Throw e => (Throw e, w)
  | Ok notionToken =>
      match get req_body (js "pageId") with
      | Throw e => (Throw e, w)
      | Ok pageId =>
          match get req_body (js "newDate") with
          | Throw e => (Throw e, w)
          | Ok newDate =>
              if truthy notionToken && truthy pageId && truthy newDate then
                let c := Call notionToken pages_update
                              (date_update pageId newDate) in
                settled rev UpdatePostDate w c (snd (upstream c (notion w)))
                  (let* _ := fst (upstream c (notion w)) in
                   acknowledgement number_to_string pageId newDate)
              else rejected w (js "Token, Page ID, and new date are required.")
          end
      end
  end.
Proof.
  unfold update_post_date, bind, eval, try_catch, await_notion, rejected, settled.
  destruct (get req_body (js "notionToken")) as [notionToken|e]; [|reflexivity].
  destruct (get req_body (js "pageId")) as [pageId|e]; [|reflexivity].
  destruct (get req_body (js "newDate")) as [newDate|e]; [|reflexivity].
  destruct (truthy notionToken), (truthy pageId), (truthy newDate);
    try reflexivity.
  cbn [negb orb andb]. cbv beta iota zeta.
  destruct (upstream _ (notion w)) as [[response|e] s']; [|reflexivity].
  cbn [fst snd Eval.bind calls console statusCode sent notion negb orb andb].
  destruct (acknowledgement number_to_string pageId newDate); reflexivity.
Qed.

End RoutesRun.

(** ** What a request leaves behind *)

Lemma settled_calls (upstream_state : Type) (rev : revision) (r : route)
    (w : world upstream_state) (c : upstream_call) (s' : upstream_state)
    (outcome : result value) :
  calls (snd (settled rev r w c s' outcome)) = calls w ++ [c].
Proof. destruct outcome; reflexivity. Qed.

Lemma not_own_extension (A : Type) (l : list A) (a : A) : l = l ++ [a] -> False.
Proof.
  intros H. apply (f_equal (@List.length A)) in H.
  rewrite length_app in H. simpl in H. lia.
Qed.

Lemma last_call_inj (l : list upstream_call) (c c' : upstream_call) :
  l ++ [c] = l ++ [c'] -> c = c'.
Proof. intros H. apply app_inv_head in H. now injection H. Qed.

(** A value read as [undefined] or as the empty string is falsy. *)
Lemma absent_or_empty_falsy (req_body : value) (k : jsstring) :
  absent_or_empty req_body k ->
  exists v, get req_body k = Ok v /\ truthy v = false.
Proof. intros [H|H]; eauto. Qed.

(** C1: on each of the three routes, a request whose body lacks a required
    field, or holds it as the empty string, is answered with status 400 and
    a body with an [error] field, and no call goes out: neither the calls
    made nor the external system change. *)
Theorem missing_field_is_rejected
    (upstream_state : Type)
    (upstream : upstream_call -> upstream_state -> result value * upstream_state)
    (number_to_string : float -> jsstring) (rev : revision)
    (r : route) (req_body : value) (k : jsstring) (w : world upstream_state) :
  In k (required_fields r) ->
  absent_or_empty req_body k ->
  serve upstream number_to_string rev r req_body w =
  (Ok tt,
   World (notion w) (calls w) (console w) 400
     (sent w ++
      [Response 400
         (VObj [(js "error",
                 VStr (match r with
                       | GetDatabases => js "Notion token is required."
                       | GetPosts =>
                           js "Notion token and Database ID are required."
                       | UpdatePostDate =>
                           js "Token, Page ID, and new date are required."
                       end))])])).
Proof.
  intros Hin Habsent.
  destruct (absent_or_empty_falsy _ _ Habsent) as [v [Hv Hfalsy]].
  pose proof (get_total _ _ _ Hv) as Hread.
  unfold serve, handler.
  destruct r; unfold required_fields in Hin; cbn [In] in Hin.
  - destruct Hin as [<-|[]].
    rewrite get_databases_run, Hv, Hfalsy. reflexivity.
  - destruct (Hread (js "notionToken")) as [t Ht].
    destruct (Hread (js "databaseId")) as [d Hd].
    rewrite get_posts_run, Ht, Hd.
    assert (Hgate : truthy t && truthy d = false).
    { destruct Hin as [<-|[<-|[]]].
      - assert (t = v) by congruence. subst t. now rewrite Hfalsy.
      - assert (d = v) by congruence. subst d.
        rewrite Hfalsy. apply andb_false_r. }
    rewrite Hgate. reflexivity.
  - destruct (Hread (js "notionToken")) as [t Ht].
    destruct (Hread (js "pageId")) as [p Hp].
    destruct (Hread (js "newDate")) as [d Hd].
    rewrite update_post_date_run, Ht, Hp, Hd.
    assert (Hgate : truthy t && truthy p && truthy d = false).
    { destruct Hin as [<-|[<-|[<-|[]]]].
      - assert (t = v) by congruence. subst t. now rewrite Hfalsy.
      - assert (p = v) by congruence. subst p.
        rewrite Hfalsy, andb_false_r. reflexivity.
      - assert (d = v) by congruence. subst d.
        rewrite Hfalsy. apply andb_false_r. }
    rewrite Hgate. reflexivity.
Qed.

Lemma missing_field_is_rejected_witness :
  let req_body := VObj [(js "notionToken", VStr (js "t"));
                        (js "pageId", VStr empty);
                        (js "newDate", VStr (js "2024-05-01"))] in
  In (js "pageId") (required_fields UpdatePostDate) /\
  absent_or_empty req_body (js "pageId") /\
  serve (counting_upstream (Ok VNull)) unused_number_to_string Compact
    UpdatePostDate req_body idle =
  (Ok tt,
   World 0 [] [] 400
     [Response 400
        (VObj [(js "error",
                VStr (js "Token, Page ID, and new date are required."))])]).
Proof.
  intros req_body.
  assert (Hin : In (js "pageId") (required_fields UpdatePostDate))
    by (right; left; reflexivity).
  assert (Habsent : absent_or_empty req_body (js "pageId"))
    by (right; reflexivity).
  split; [exact Hin|]. split; [exact Habsent|].
  exact (missing_field_is_rejected nat (counting_upstream (Ok VNull))
           unused_number_to_string Compact UpdatePostDate req_body
           (js "pageId") idle Hin Habsent).
Defined.

Lemma truthy_of_nonempty (s : jsstring) : s <> empty -> truthy (VStr s) = true.
Proof. destruct s; [intros H; now contradiction H|reflexivity]. Qed.

(** A successful update, for a page id and a date that are strings. *)
Lemma update_resolved
    (upstream_state : Type)
    (upstream : upstream_call -> upstream_state -> result value * upstream_state)
    (number_to_string : float -> jsstring) (rev : revision)
    (req_body notionToken : value) (pageId newDate : jsstring)
    (w : world upstream_state) (answer : value) (s' : upstream_state) :
  get req_body (js "notionToken") = Ok notionToken ->
  truthy notionToken = true ->
  get req_body (js "pageId") = Ok (VStr pageId) -> pageId <> empty ->
  get req_body (js "newDate") = Ok (VStr newDate) -> newDate <> empty ->
  upstream (Call notionToken pages_update
                 (date_update (VStr pageId) (VStr newDate))) (notion w)
  = (Ok answer, s') ->
  serve upstream number_to_string rev UpdatePostDate req_body w =
  (Ok tt,
   World s'
     (calls w ++ [Call notionToken pages_update
                       (date_update (VStr pageId) (VStr newDate))])
     (console w) 200
     (sent w ++
      [Response 200
         (VObj [(js "success", VBool true);
                (js "message",
                 VStr (js "Post " ++ pageId ++ js " updated to " ++ newDate))])])).
Proof.
  intros Htoken Htruthy Hpage Hp Hdate Hd Hup.
  unfold serve, handler.
  rewrite update_post_date_run, Htoken, Hpage, Hdate, Htruthy.
  rewrite (truthy_of_nonempty _ Hp), (truthy_of_nonempty _ Hd).
  cbn [andb notion]. cbv zeta. rewrite Hup. reflexivity.
Qed.

(** C6: a successful update is answered with exactly
    [{ success: true, message }], the message holding the page id and the
    new date as given; for token "t", page "p1" and date "2024-05-01" the
    message is "Post p1 updated to 2024-05-01". *)
Theorem update_acknowledged
    (upstream_state : Type)
    (upstream : upstream_call -> upstream_state -> result value * upstream_state)
    (number_to_string : float -> jsstring) (rev : revision)
    (req_body notionToken : value) (pageId newDate : jsstring)
    (w : world upstream_state) (answer : value) (s' : upstream_state) :
  get req_body (js "notionToken") = Ok notionToken ->
  truthy notionToken = true ->
  get req_body (js "pageId") = Ok (VStr pageId) -> pageId <> empty ->
  get req_body (js "newDate") = Ok (VStr newDate) -> newDate <> empty ->
  upstream (Call notionToken pages_update
                 (date_update (VStr pageId) (VStr newDate))) (notion w)
  = (Ok answer, s') ->
  serve upstream number_to_string rev UpdatePostDate req_body w =
  (Ok tt,
   World s'
     (calls w ++ [Call notionToken pages_update
                       (date_update (VStr pageId) (VStr newDate))])
     (console w) 200
     (sent w ++
      [Response 200
         (VObj [(js "success", VBool true);
                (js "message",
                 VStr (js "Post " ++ pageId ++ js " updated to " ++ newDate))])]))
  /\
  (notionToken = VStr (js "t") -> pageId = js "p1" -> newDate = js "2024-05-01" ->
   sent (snd (serve upstream number_to_string rev UpdatePostDate req_body w)) =
   sent w ++
   [Response 200
      (VObj [(js "success", VBool true);
             (js "message", VStr (js "Post p1 updated to 2024-05-01"))])]).
Proof.
  intros Htoken Htruthy Hpage Hp Hdate Hd Hup.
  pose proof (update_resolved _ upstream number_to_string rev req_body
                notionToken pageId newDate w answer s'
                Htoken Htruthy Hpage Hp Hdate Hd Hup) as Hrun.
  split; [exact Hrun|].
  intros _ -> ->. rewrite Hrun. reflexivity.
Qed.

Lemma update_acknowledged_witness :
  let req_body := VObj [(js "notionToken", VStr (js "t"));
                        (js "pageId", VStr (js "p1"));
                        (js "newDate", VStr (js "2024-05-01"))] in
  let c := Call (VStr (js "t")) pages_update
                (date_update (VStr (js "p1")) (VStr (js "2024-05-01"))) in
  counting_upstream (Ok (VObj [(js "object", VStr (js "page"))])) c (notion idle)
  = (Ok (VObj [(js "object", VStr (js "page"))]), 1) /\
  serve (counting_upstream (Ok (VObj [(js "object", VStr (js "page"))])))
    unused_number_to_string Compact UpdatePostDate req_body idle =
  (Ok tt,
   World 1 [c] [] 200
     [Response 200
        (VObj [(js "success", VBool true);
               (js "message", VStr (js "Post p1 updated to 2024-05-01"))])]).
Proof.
  intros req_body c. split; [reflexivity|].
  refine (proj1 (update_acknowledged nat
                   (counting_upstream (Ok (VObj [(js "object", VStr (js "page"))])))
                   unused_number_to_string Compact req_body (VStr (js "t"))
                   (js "p1") (js "2024-05-01") idle
                   (VObj [(js "object", VStr (js "page"))]) 1
                   eq_refl eq_refl eq_refl _ eq_refl _ eq_refl));
    discriminate.
Defined.

(** In a run that stopped before the [try] block the calls are as they
    were: such a run did not make the call [c]. *)
Ltac gate_closed H := solve [exfalso; exact (not_own_extension _ _ _ H)].

(** Past the gate the call made is the route's own: it is [c]. *)
Ltac gate_passed H :=
  cbv zeta in H |- *; rewrite settled_calls in H;
  apply last_call_inj in H; subst.

(** A run that made the call [c] is a run past the gate, settled by what
    the call and the rest of the [try] block gave. *)
Lemma serve_after_call
    (upstream_state : Type)
    (upstream : upstream_call -> upstream_state -> result value * upstream_state)
    (number_to_string : float -> jsstring) (rev : revision)
    (r : route) (req_body : value) (w : world upstream_state)
    (c : upstream_call) :
  calls (snd (serve upstream number_to_string rev r req_body w))
  = calls w ++ [c] ->
  exists rest : result value -> result value,
    (forall e, rest (Throw e) = Throw e) /\
    serve upstream number_to_string rev r req_body w =
    settled rev r (World (notion w) (calls w) (console w) 200 (sent w)) c
      (snd (upstream c (notion w))) (rest (fst (upstream c (notion w)))).
Proof.
  unfold serve, handler. intros Hcalls.
  destruct r.
  - rewrite get_databases_run in *.
    destruct (get req_body (js "notionToken")) as [t|e]; [|gate_closed Hcalls].
    destruct (truthy t); [|gate_closed Hcalls].
    gate_passed Hcalls.
    exists (fun settled =>
              let* response := settled in
              let* results := get response (js "results") in
              array_map database_summary results).
    split; reflexivity.
  - rewrite get_posts_run in *.
    destruct (get req_body (js "notionToken")) as [t|e]; [|gate_closed Hcalls].
    destruct (get req_body (js "databaseId")) as [d|e]; [|gate_closed Hcalls].
    destruct (truthy t && truthy d); [|gate_closed Hcalls].
    gate_passed Hcalls.
    exists (fun settled =>
              let* response := settled in
              let* results := get response (js "results") in
              array_map post_of_page results).
    split; reflexivity.
  - rewrite update_post_date_run in *.
    destruct (get req_body (js "notionToken")) as [t|e]; [|gate_closed Hcalls].
    destruct (get req_body (js "pageId")) as [p|e]; [|gate_closed Hcalls].
    destruct (get req_body (js "newDate")) as [d|e]; [|gate_closed Hcalls].
    destruct (truthy t && truthy p && truthy d); [|gate_closed Hcalls].
    gate_passed Hcalls.
    exists (fun settled =>
              let* _ := settled in acknowledgement number_to_string p d).
    split; reflexivity.
Qed.

(** C7: on each of the three routes, when the upstream call of the request
    (the call [c] the run adds to [calls]) throws or rejects, the answer
    has status 500 and a body that is only [{ error: message }], the
    message fixed by the route: nothing of the token, of the error or of
    its detail is in it; the detail goes to the console. *)
Theorem upstream_failure_is_500
    (upstream_state : Type)
    (upstream : upstream_call -> upstream_state -> result value * upstream_state)
    (number_to_string : float -> jsstring) (rev : revision)
    (r : route) (req_body : value) (w : world upstream_state)
    (c : upstream_call) (e : js_error) (s' : upstream_state) :
  calls (snd (serve upstream number_to_string rev r req_body w))
  = calls w ++ [c] ->
  upstream c (notion w) = (Throw e, s') ->
  serve upstream number_to_string rev r req_body w =
  (Ok tt,
   World s' (calls w ++ [c])
     (console w ++ [(failure_label r, error_body e)]) 500
     (sent w ++
      [Response 500
         (VObj [(js "error",
                 VStr (match r, rev with
                       | GetDatabases, Compact =>
                           js "Failed to fetch databases from Notion."
                       | GetDatabases, Annotated =>
                           js "Failed to fetch databases from Notion. Check your token and permissions."
                       | GetPosts, Compact =>
                           js "Failed to fetch posts from Notion."
                       | GetPosts, Annotated =>
                           js "Failed to fetch posts from Notion. Check database ID and ensure integration has access."
                       | UpdatePostDate, _ =>
                           js "Failed to update post date in Notion."
                       end))])])).
Proof.
  intros Hcalls Hup.
  destruct (serve_after_call _ upstream number_to_string rev r req_body w c Hcalls)
    as [rest [Hrest ->]].
  rewrite Hup. cbn [fst snd]. rewrite Hrest.
  destruct r, rev; reflexivity.
Qed.

Lemma upstream_failure_is_500_witness :
  let req_body := VObj [(js "notionToken", VStr (js "secret_abc"));
                        (js "databaseId", VStr (js "db1"))] in
  let c := Call (VStr (js "secret_abc")) databases_query
                (posts_query (VStr (js "db1"))) in
  let e := ClientError (VStr (js "API token is invalid.")) in
  calls (snd (serve (counting_upstream (Throw e)) unused_number_to_string
                Annotated GetPosts req_body idle))
  = calls idle ++ [c] /\
  counting_upstream (Throw e) c (notion idle) = (Throw e, 1) /\
  serve (counting_upstream (Throw e)) unused_number_to_string Annotated
    GetPosts req_body idle =
  (Ok tt,
   World 1 [c]
     [(js "Error fetching posts:", VStr (js "API token is invalid."))] 500
     [Response 500
        (VObj [(js "error",
                VStr (js "Failed to fetch posts from Notion. Check database ID and ensure integration has access."))])]).
Proof.
  intros req_body c e.
  split; [reflexivity|]. split; [reflexivity|].
  exact (upstream_failure_is_500 nat (counting_upstream (Throw e))
           unused_number_to_string Annotated GetPosts req_body idle c e 1
           eq_refl eq_refl).
Defined.

(** C8: two updates with the same token, page id and date, the upstream
    call succeeding both times, are answered with the same acknowledgement. *)
Theorem update_twice_same_acknowledgement
    (upstream_state : Type)
    (upstream : upstream_call -> upstream_state -> result value * upstream_state)
    (number_to_string : float -> jsstring) (rev : revision)
    (req_body notionToken : value) (pageId newDate : jsstring)
    (w : world upstream_state) (answer1 answer2 : value)
    (s1 s2 : upstream_state) :
  get req_body (js "notionToken") = Ok notionToken ->
  truthy notionToken = true ->
  get req_body (js "pageId") = Ok (VStr pageId) -> pageId <> empty ->
  get req_body (js "newDate") = Ok (VStr newDate) -> newDate <> empty ->
  upstream (Call notionToken pages_update
                 (date_update (VStr pageId) (VStr newDate))) (notion w)
  = (Ok answer1, s1) ->
  upstream (Call notionToken pages_update
                 (date_update (VStr pageId) (VStr newDate))) s1
  = (Ok answer2, s2) ->
  let once := snd (serve upstream number_to_string rev UpdatePostDate req_body w) in
  let twice :=
    snd (serve upstream number_to_string rev UpdatePostDate req_body once) in
  exists ack,
    acknowledgement number_to_string (VStr pageId) (VStr newDate) = Ok ack /\
    sent once = sent w ++ [Response 200 ack] /\
    sent twice = sent once ++ [Response 200 ack].
Proof.
  intros Htoken Htruthy Hpage Hp Hdate Hd Hup1 Hup2 once twice.
  pose proof (update_resolved _ upstream number_to_string rev req_body
                notionToken pageId newDate w answer1 s1
                Htoken Htruthy Hpage Hp Hdate Hd Hup1) as Hfirst.
  assert (Honce : notion once = s1) by (unfold once; now rewrite Hfirst).
  rewrite <- Honce in Hup2.
  pose proof (update_resolved _ upstream number_to_string rev req_body
                notionToken pageId newDate once answer2 s2
                Htoken Htruthy Hpage Hp Hdate Hd Hup2) as Hsecond.
  eexists. split; [reflexivity|]. split.
  - unfold once. now rewrite Hfirst.
  - unfold twice. now rewrite Hsecond.
Qed.

Lemma update_twice_same_acknowledgement_witness :
  let req_body := VObj [(js "notionToken", VStr (js "t"));
                        (js "pageId", VStr (js "p1"));
                        (js "newDate", VStr (js "2024-05-01"))] in
  let up := counting_upstream (Ok (VObj [(js "object", VStr (js "page"))])) in
  let once := snd (serve up unused_number_to_string Compact UpdatePostDate
                     req_body idle) in
  let twice := snd (serve up unused_number_to_string Compact UpdatePostDate
                      req_body once) in
  exists ack,
    acknowledgement unused_number_to_string (VStr (js "p1"))
      (VStr (js "2024-05-01")) = Ok ack /\
    sent once = sent idle ++ [Response 200 ack] /\
    sent twice = sent once ++ [Response 200 ack].
Proof.
  intros req_body up.
  refine (update_twice_same_acknowledgement nat up unused_number_to_string
            Compact req_body (VStr (js "t")) (js "p1") (js "2024-05-01") idle
            (VObj [(js "object", VStr (js "page"))])
            (VObj [(js "object", VStr (js "page"))]) 1 2
            eq_refl eq_refl eq_refl _ eq_refl _ eq_refl eq_refl);
    discriminate.
Defined.

(** ** The answers of the two listing routes

    What [post_of_page] and [database_summary] say of one record, the
    routes say of each record of their answer, in the order upstream gave
    them. *)

Lemma array_map_Forall2 (f : value -> result value) (elems out : list value) :
  Forall2 (fun a b => f a = Ok b) elems out ->
  array_map f (VArr elems) = Ok (VArr out).
Proof.
  intros H. apply mapM_Forall2 in H. unfold array_map. now rewrite H.
Qed.

Lemma get_posts_resolved
    (upstream_state : Type)
    (upstream : upstream_call -> upstream_state -> result value * upstream_state)
    (number_to_string : float -> jsstring) (rev : revision)
    (req_body notionToken databaseId response : value)
    (pages posts : list value)
    (w : world upstream_state) (s' : upstream_state) :
  get req_body (js "notionToken") = Ok notionToken ->
  truthy notionToken = true ->
  get req_body (js "databaseId") = Ok databaseId ->
  truthy databaseId = true ->
  upstream (Call notionToken databases_query (posts_query databaseId)) (notion w)
  = (Ok response, s') ->
  get response (js "results") = Ok (VArr pages) ->
  Forall2 (fun page post => post_of_page page = Ok post) pages posts ->
  serve upstream number_to_string rev GetPosts req_body w =
  (Ok tt,
   World s'
     (calls w ++ [Call notionToken databases_query (posts_query databaseId)])
     (console w) 200
     (sent w ++ [Response 200 (VArr posts)])).
Proof.
  intros Htoken Ht Hdb Hd Hup Hresults Hposts.
  unfold serve, handler.
  rewrite get_posts_run, Htoken, Hdb, Ht, Hd.
  cbn [andb notion]. cbv zeta. rewrite Hup. cbn [fst snd Eval.bind].
  rewrite Hresults. cbn [Eval.bind].
  rewrite (array_map_Forall2 _ _ _ Hposts). reflexivity.
Qed.

Lemma get_databases_resolved
    (upstream_state : Type)
    (upstream : upstream_call -> upstream_state -> result value * upstream_state)
    (number_to_string : float -> jsstring) (rev : revision)
    (req_body notionToken response : value)
    (dbs summaries : list value)
    (w : world upstream_state) (s' : upstream_state) :
  get req_body (js "notionToken") = Ok notionToken ->
  truthy notionToken = true ->
  upstream (Call notionToken search search_filter) (notion w)
  = (Ok response, s') ->
  get response (js "results") = Ok (VArr dbs) ->
  Forall2 (fun db summary => database_summary db = Ok summary) dbs summaries ->
  serve upstream number_to_string rev GetDatabases req_body w =
  (Ok tt,
   World s' (calls w ++ [Call notionToken search search_filter])
     (console w) 200
     (sent w ++ [Response 200 (VArr summaries)])).
Proof.
  intros Htoken Ht Hup Hresults Hsummaries.
  unfold serve, handler.
  rewrite get_databases_run, Htoken, Ht.
  cbv zeta. cbn [notion]. rewrite Hup. cbn [fst snd Eval.bind].
  rewrite Hresults. cbn [Eval.bind].
  rewrite (array_map_Forall2 _ _ _ Hsummaries). reflexivity.
Qed.

(** With every required field truthy the gate is passed: one call goes
    out, whatever becomes of it. *)
Lemma accepted_request_calls_once
    (upstream_state : Type)
    (upstream : upstream_call -> upstream_state -> result value * upstream_state)
    (number_to_string : float -> jsstring) (rev : revision)
    (r : route) (req_body : value) (w : world upstream_state) :
  (forall k, In k (required_fields r) ->
             exists v, get req_body k = Ok v /\ truthy v = true) ->
  exists c,
    calls (snd (serve upstream number_to_string rev r req_body w))
    = calls w ++ [c].
Proof.
  intros Hfields. unfold serve, handler.
  destruct r; unfold required_fields in Hfields.
  - destruct (Hfields (js "notionToken")) as [t [Ht Htt]]; [now left|].
    rewrite get_databases_run, Ht, Htt. cbv zeta.
    eexists. rewrite settled_calls. reflexivity.
  - destruct (Hfields (js "notionToken")) as [t [Ht Htt]]; [now left|].
    destruct (Hfields (js "databaseId")) as [d [Hd Hdt]]; [right; now left|].
    rewrite get_posts_run, Ht, Hd, Htt, Hdt. cbn [andb]. cbv zeta.
    eexists. rewrite settled_calls. reflexivity.
  - destruct (Hfields (js "notionToken")) as [t [Ht Htt]]; [now left|].
    destruct (Hfields (js "pageId")) as [p [Hp Hpt]]; [right; now left|].
    destruct (Hfields (js "newDate")) as [d [Hd Hdt]];
      [right; right; now left|].
    rewrite update_post_date_run, Ht, Hp, Hd, Htt, Hpt, Hdt.
    cbn [andb]. cbv zeta. eexists. rewrite settled_calls. reflexivity.
Qed.

(** * Further properties of the code *)

(** ** What [media] holds *)

Lemma trim_subset (s : jsstring) (c : N) : In c (trim s) -> In c s.
Proof.
  intros Hin. destruct (trim_decompose s) as [a [b [Hs _]]].
  rewrite Hs. apply in_or_app. right. apply in_or_app. now left.
Qed.

Lemma last_split (u : jsstring) (c : N) :
  u <> [] -> u = removelast u ++ [last u c].
Proof. intros Hu. now apply app_removelast_last. Qed.

Lemma trimmed_segment_clean (seg : jsstring) :
  ~ In comma seg -> trim seg <> [] -> clean_url (trim seg) = true.
Proof.
  intros Hcomma Hne.
  destruct (trim seg) as [|c t] eqn:Htrim; [contradiction|].
  unfold clean_url.
  rewrite (trim_head seg c t Htrim). cbn [negb andb].
  assert (Hlast : is_space (last (c :: t) c) = false).
  { apply (trim_last seg (removelast (c :: t))).
    rewrite Htrim. now apply last_split. }
  rewrite Hlast. cbn [negb andb].
  destruct (existsb (N.eqb comma) (c :: t)) eqn:Hex; [|reflexivity].
  apply existsb_exists in Hex as [x [Hin Hx]].
  apply N.eqb_eq in Hx. subst x.
  exfalso. apply Hcomma. apply trim_subset. now rewrite Htrim.
Qed.

(** Whatever the page holds, when the [media] expression gives a value it
    is an array of strings, each of them not empty, free of commas and
    without white space at either end. *)
Lemma media_entries_clean (properties media : value) :
  media_of properties = Ok media ->
  exists urls,
    media = VArr (map VStr urls) /\ forallb clean_url urls = true.
Proof.
  unfold media_of. intros H.
  destruct (getProp properties (js "Media") (js "url") plain_text)
    as [url|e]; [|discriminate].
  cbn [Eval.bind] in H.
  destruct (or_else url (VStr empty)) as [| | | |s| |]; try discriminate.
  cbn [split_commas Eval.bind] in H. injection H as <-.
  eexists. split; [reflexivity|].
  apply forallb_forall. intros u Hu.
  apply filter_In in Hu as [Hu Hne].
  apply in_map_iff in Hu as [seg [<- Hseg]].
  pose proof (split_no_sep comma s) as Hsep.
  rewrite Forall_forall in Hsep.
  apply trimmed_segment_clean; [now apply Hsep|].
  intros Hnil. now rewrite Hnil in Hne.
Qed.

Lemma split_segment (sep : N) (seg : jsstring) :
  ~ In sep seg -> split sep seg = [seg].
Proof.
  induction seg as [|c seg IH]; intros Hnot; simpl; [reflexivity|].
  destruct (N.eqb_spec c sep) as [->|_]; [exfalso; apply Hnot; now left|].
  rewrite IH; [reflexivity|]. intros Hin. apply Hnot. now right.
Qed.

Lemma split_segment_sep (sep : N) (seg rest : jsstring) :
  ~ In sep seg -> split sep (seg ++ sep :: rest) = seg :: split sep rest.
Proof.
  induction seg as [|c seg IH]; intros Hnot; simpl.
  - now rewrite N.eqb_refl.
  - destruct (N.eqb_spec c sep) as [->|_]; [exfalso; apply Hnot; now left|].
    rewrite IH; [reflexivity|]. intros Hin. apply Hnot. now right.
Qed.

(** [split] undoes [join], on segments free of the separator. *)
Lemma split_join (sep : N) (segs : list jsstring) :
  segs <> [] ->
  Forall (fun seg => ~ In sep seg) segs ->
  split sep (join [sep] segs) = segs.
Proof.
  induction segs as [|seg segs IH]; intros Hne Hall; [contradiction|].
  inversion Hall as [|? ? Hseg Hsegs]; subst.
  destruct segs as [|seg' segs'].
  - simpl. now apply split_segment.
  - change (join [sep] (seg :: seg' :: segs'))
      with (seg ++ sep :: join [sep] (seg' :: segs')).
    rewrite (split_segment_sep sep seg _ Hseg), IH; [reflexivity| |assumption].
    discriminate.
Qed.

Lemma clean_url_facts (u : jsstring) :
  clean_url u = true ->
  exists c t,
    u = c :: t /\ is_space c = false /\ is_space (last u c) = false /\
    ~ In comma u.
Proof.
  destruct u as [|c t]; [discriminate|].
  unfold clean_url. intros H.
  apply andb_prop in H as [H Hcomma]. apply andb_prop in H as [Hhead Hlast].
  apply negb_true_iff in Hhead, Hlast, Hcomma.
  exists c, t. repeat split; try assumption.
  intros Hin.
  assert (Hex : existsb (N.eqb comma) (c :: t) = true)
    by (apply existsb_exists; exists comma; split;
        [exact Hin|apply N.eqb_refl]).
  congruence.
Qed.

(** [trim] leaves a clean URL as it is. *)
Lemma trim_clean (u : jsstring) : clean_url u = true -> trim u = u.
Proof.
  intros Hclean.
  destruct (clean_url_facts u Hclean) as [c [t [-> [Hhead [Hlast _]]]]].
  unfold trim. cbn [trimStart]. rewrite Hhead.
  unfold trimEnd.
  rewrite (last_split (c :: t) c) at 1 by discriminate.
  rewrite rev_app_distr. cbn [rev app trimStart]. rewrite Hlast.
  change (last (c :: t) c :: rev (removelast (c :: t)))
    with (rev [last (c :: t) c] ++ rev (removelast (c :: t))).
  rewrite <- rev_app_distr, rev_involutive.
  symmetry. now apply last_split.
Qed.

(** X1: a list of clean URLs written into the "Media" property joined by
    commas is read back as that list, in that order. *)
Theorem media_round_trip (properties prop : value) (urls : list jsstring) :
  get properties (js "Media") = Ok prop ->
  truthy prop = true ->
  get prop (js "url") = Ok (VStr (join [comma] urls)) ->
  forallb clean_url urls = true ->
  media_of properties = Ok (VArr (map VStr urls)).
Proof.
  intros Hget Hpresent Hurl Hclean.
  rewrite (media_of_string properties (join [comma] urls))
    by now rewrite (getProp_url_present _ _ _ Hget Hpresent).
  rewrite media_spec_methods. do 3 f_equal.
  rewrite forallb_forall in Hclean.
  destruct urls as [|u urls]; [reflexivity|].
  rewrite split_join; [|discriminate|].
  - rewrite (map_ext_in trim (fun u => u))
      by (intros a Ha; now apply trim_clean, Hclean).
    rewrite map_id.
    apply forallb_filter_id, forallb_forall. intros a Ha.
    destruct (clean_url_facts a (Hclean a Ha)) as [c [t [-> _]]].
    reflexivity.
  - apply Forall_forall. intros a Ha.
    now destruct (clean_url_facts a (Hclean a Ha)) as [c [t [_ [_ [_ Hc]]]]].
Qed.

Lemma media_round_trip_witness :
  let urls := [js "http://a/1.png"; js "http://b/2 3.png"] in
  let prop := VObj [(js "url", VStr (join [comma] urls))] in
  let properties := VObj [(js "Media", prop)] in
  get properties (js "Media") = Ok prop /\
  truthy prop = true /\
  get prop (js "url") = Ok (VStr (join [comma] urls)) /\
  forallb clean_url urls = true /\
  media_of properties = Ok (VArr (map VStr urls)).
Proof.
  intros urls prop properties.
  split; [reflexivity|]. split; [reflexivity|]. split; [reflexivity|].
  split; [reflexivity|].
  exact (media_round_trip properties prop urls eq_refl eq_refl eq_refl eq_refl).
Defined.

(** [media] when [getProp('Media', 'url')] is falsy: [''] is split. *)
Lemma media_of_falsy (properties url : value) :
  getProp properties (js "Media") (js "url") plain_text = Ok url ->
  truthy url = false ->
  media_of properties = Ok (VArr []).
Proof.
  intros Hurl Hfalsy. unfold media_of, or_else.
  now rewrite Hurl; cbn [Eval.bind]; rewrite Hfalsy.
Qed.

(** X2: the URL of a "Media" property that is there decides [media]: a
    missing or falsy URL gives the empty array (so does a property of
    another kind, which has no [url]), and a URL that is truthy without
    being a string makes the expression throw a TypeError, since only a
    string can be split. *)
Theorem media_by_url (properties prop url : value) :
  get properties (js "Media") = Ok prop ->
  truthy prop = true ->
  get prop (js "url") = Ok url ->
  match url with
  | VStr s => media_of properties = Ok (VArr (map VStr (MediaSpec.media_spec s)))
  | _ => if truthy url then media_of properties = Throw TypeError
         else media_of properties = Ok (VArr [])
  end.
Proof.
  intros Hget Hpresent Hurl.
  assert (Hprop : getProp properties (js "Media") (js "url") plain_text = Ok url)
    by now rewrite (getProp_url_present _ _ _ Hget Hpresent).
  destruct url as [| |b|x|s|elems|fields];
    try (now apply (media_of_falsy _ _ Hprop));
    try (now apply media_of_string);
    try (unfold media_of; now rewrite Hprop).
  - destruct b; [unfold media_of; now rewrite Hprop|].
    now apply (media_of_falsy _ _ Hprop).
  - destruct (truthy (VNum x)) eqn:Hx.
    + unfold media_of, or_else. now rewrite Hprop; cbn [Eval.bind]; rewrite Hx.
    + now apply (media_of_falsy _ _ Hprop).
Qed.

Lemma media_by_url_witness :
  let other := VObj [(js "type", VStr (js "rich_text")); (js "rich_text", VArr [])] in
  let files := VObj [(js "type", VStr (js "url")); (js "url", VArr [VStr (js "http://a")])] in
  (get (VObj [(js "Media", other)]) (js "Media") = Ok other /\
   truthy other = true /\ get other (js "url") = Ok VUndef /\
   media_of (VObj [(js "Media", other)]) = Ok (VArr [])) /\
  (get (VObj [(js "Media", files)]) (js "Media") = Ok files /\
   truthy files = true /\
   get files (js "url") = Ok (VArr [VStr (js "http://a")]) /\
   media_of (VObj [(js "Media", files)]) = Throw TypeError).
Proof.
  intros other files. split.
  - split; [reflexivity|]. split; [reflexivity|]. split; [reflexivity|].
    exact (media_by_url (VObj [(js "Media", other)]) other VUndef
             eq_refl eq_refl eq_refl).
  - split; [reflexivity|]. split; [reflexivity|]. split; [reflexivity|].
    exact (media_by_url (VObj [(js "Media", files)]) files
             (VArr [VStr (js "http://a")]) eq_refl eq_refl eq_refl).
Defined.

(** ** What [getProp] returns *)

Lemma or_else_not_null (text : value) : or_else text (VStr empty) <> VNull.
Proof.
  unfold or_else. destruct (truthy text) eqn:Ht; [|discriminate].
  intros ->. discriminate.
Qed.

Lemma is_text_kind (type : jsstring) :
  type = js "title" \/ type = js "rich_text" ->
  JsString.eqb type (js "title") || JsString.eqb type (js "rich_text") = true.
Proof. intros [-> | ->]; reflexivity. Qed.

(** X3: at the kinds [title] and [rich_text], and for a name that is a
    data key, the helper returns null only for a property that the bag
    lacks or holds as a falsy value: null tells a missing property from an
    empty text, which is the empty string. *)
Theorem text_null_iff_absent
    (fields : list (jsstring * value)) (name type subType : jsstring) :
  data_key name = true ->
  type = js "title" \/ type = js "rich_text" ->
  (getProp (VObj fields) name type subType = Ok VNull <->
   lookup name fields = None \/
   exists prop, lookup name fields = Some prop /\ truthy prop = false).
Proof.
  intros _ Hkind.
  pose proof (get_object fields name) as Hget.
  split.
  - intros Hnull.
    destruct (lookup name fields) as [prop|]; [right|now left].
    exists prop. split; [reflexivity|].
    destruct (truthy prop) eqn:Hpresent; [exfalso|reflexivity].
    rewrite (getProp_present _ _ _ _ _ Hget Hpresent), (is_text_kind _ Hkind)
      in Hnull.
    destruct (get prop type) as [frags|]; [|discriminate].
    cbn [Eval.bind] in Hnull.
    destruct (get frags (js "0")) as [first|]; [|discriminate].
    cbn [Eval.bind] in Hnull.
    destruct (get_opt first subType) as [text|]; [|discriminate].
    cbn [Eval.bind] in Hnull. injection Hnull as Hnull.
    exact (or_else_not_null _ Hnull).
  - intros [Hnone|[prop [Hsome Hfalsy]]].
    + rewrite Hnone in Hget. exact (getProp_falsy _ _ _ _ _ Hget eq_refl).
    + rewrite Hsome in Hget. exact (getProp_falsy _ _ _ _ _ Hget Hfalsy).
Qed.

Lemma text_null_iff_absent_witness :
  let fields := [(js "Caption", VNull)] in
  data_key (js "Caption") = true /\
  (js "rich_text" = js "title" \/ js "rich_text" = js "rich_text") /\
  (lookup (js "Caption") fields = None \/
   exists prop, lookup (js "Caption") fields = Some prop /\ truthy prop = false) /\
  getProp (VObj fields) (js "Caption") (js "rich_text") plain_text = Ok VNull.
Proof.
  intros fields.
  assert (Hkind : js "rich_text" = js "title" \/ js "rich_text" = js "rich_text")
    by (right; reflexivity).
  assert (Hfalsy : lookup (js "Caption") fields = None \/
                   exists prop, lookup (js "Caption") fields = Some prop /\
                                truthy prop = false)
    by (right; exists VNull; split; reflexivity).
  split; [reflexivity|]. split; [exact Hkind|]. split; [exact Hfalsy|].
  exact (proj2 (text_null_iff_absent fields (js "Caption") (js "rich_text")
                  plain_text eq_refl Hkind) Hfalsy).
Defined.

Lemma eqb_false_of_neq (s t : jsstring) : s <> t -> JsString.eqb s t = false.
Proof.
  intros Hne. destruct (JsString.eqb s t) eqn:H; [|reflexivity].
  apply jsstring_eqb_eq in H. contradiction.
Qed.

(** X4: asked for a kind that is none of [title], [rich_text], [url] and
    [date], the helper returns null, whatever the property holds; it throws
    only when the property bag itself cannot be read. *)
Theorem other_kind_is_null (properties prop : value) (name type subType : jsstring) :
  get properties name = Ok prop ->
  type <> js "title" -> type <> js "rich_text" ->
  type <> js "url" -> type <> js "date" ->
  getProp properties name type subType = Ok VNull.
Proof.
  intros Hget Htitle Hrich Hurl Hdate.
  destruct (truthy prop) eqn:Hpresent;
    [|exact (getProp_falsy _ _ _ _ _ Hget Hpresent)].
  rewrite (getProp_present _ _ _ _ _ Hget Hpresent).
  now rewrite (eqb_false_of_neq _ _ Htitle), (eqb_false_of_neq _ _ Hrich),
    (eqb_false_of_neq _ _ Hurl), (eqb_false_of_neq _ _ Hdate).
Qed.

Lemma other_kind_is_null_witness :
  let prop := VObj [(js "type", VStr (js "number")); (js "number", VNum 3)] in
  let properties := VObj [(js "Order", prop)] in
  get properties (js "Order") = Ok prop /\
  getProp properties (js "Order") (js "number") plain_text = Ok VNull.
Proof.
  intros prop properties. split; [reflexivity|].
  refine (other_kind_is_null properties prop (js "Order") (js "number")
            plain_text eq_refl _ _ _ _); discriminate.
Defined.

(** X5: of a text made of several fragments only the first is read: the
    helper and the title of a database summary are the same whatever
    follows the first fragment. *)
Theorem first_fragment_only :
  (forall properties prop name type subType first rest,
      type = js "title" \/ type = js "rich_text" ->
      get properties name = Ok prop ->
      truthy prop = true ->
      get prop type = Ok (VArr (first :: rest)) ->
      getProp properties name type subType =
      let* text := get_opt first subType in Ok (or_else text (VStr empty))) /\
  (forall db first rest,
      get db (js "title") = Ok (VArr (first :: rest)) ->
      database_summary db =
      let* id := get db (js "id") in
      let* text := get_opt first (js "plain_text") in
      Ok (VObj [(js "id", id); (js "title", or_else text (VStr untitled))])).
Proof.
  split.
  - intros properties prop name type subType first rest Hkind Hget Hpresent Hfrags.
    rewrite (getProp_present _ _ _ _ _ Hget Hpresent), (is_text_kind _ Hkind).
    now rewrite Hfrags.
  - intros db first rest Htitle. unfold database_summary.
    rewrite Htitle. now destruct (get db (js "id")).
Qed.

Lemma first_fragment_only_witness :
  let first := VObj [(js "plain_text", VStr (js "Spring "))] in
  let rest := [VObj [(js "plain_text", VStr (js "launch"))]] in
  let db := VObj [(js "id", VStr (js "d1")); (js "title", VArr (first :: rest))] in
  get db (js "title") = Ok (VArr (first :: rest)) /\
  database_summary db =
  Ok (VObj [(js "id", VStr (js "d1")); (js "title", VStr (js "Spring "))]).
Proof.
  intros first rest db. split; [reflexivity|].
  rewrite (proj2 first_fragment_only db first rest eq_refl). reflexivity.
Defined.

(** ** What a database summary holds *)

Lemma or_else_truthy (text fallback : value) :
  truthy fallback = true -> truthy (or_else text fallback) = true.
Proof. intros H. unfold or_else. now destruct (truthy text) eqn:Ht. Qed.

(** X6: a database summary, when the callback gives one, is an object
    [{ id, title }] whose title is truthy: never the empty string, null or
    [undefined]. *)
Theorem database_title_never_empty (db summary : value) :
  database_summary db = Ok summary ->
  exists id title,
    summary = VObj [(js "id", id); (js "title", title)] /\
    get db (js "id") = Ok id /\
    truthy title = true.
Proof.
  unfold database_summary. intros H.
  destruct (get db (js "id")) as [id|]; [|discriminate].
  cbn [Eval.bind] in H.
  destruct (get db (js "title")) as [title|]; [|discriminate].
  cbn [Eval.bind] in H.
  destruct (get title (js "0")) as [first|]; [|discriminate].
  cbn [Eval.bind] in H.
  destruct (get_opt first (js "plain_text")) as [text|]; [|discriminate].
  cbn [Eval.bind] in H. injection H as <-.
  exists id, (or_else text (VStr untitled)).
  split; [reflexivity|]. split; [reflexivity|].
  now apply or_else_truthy.
Qed.

Lemma database_title_never_empty_witness :
  let db := VObj [(js "id", VStr (js "d1")); (js "title", VArr [])] in
  database_summary db
  = Ok (VObj [(js "id", VStr (js "d1")); (js "title", VStr untitled)]) /\
  exists id title,
    VObj [(js "id", VStr (js "d1")); (js "title", VStr untitled)]
    = VObj [(js "id", id); (js "title", title)] /\
    get db (js "id") = Ok id /\
    truthy title = true.
Proof.
  intros db. split; [reflexivity|].
  exact (database_title_never_empty db
           (VObj [(js "id", VStr (js "d1")); (js "title", VStr untitled)])
           eq_refl).
Defined.

(** ** The three stages of a request

    Every route is its gate, at most one call, and what the [try] block
    makes of the answer. *)

Lemma serve_stages
    (upstream_state : Type)
    (upstream : upstream_call -> upstream_state -> result value * upstream_state)
    (number_to_string : float -> jsstring) (rev : revision)
    (r : route) (req_body : value) (w : world upstream_state) :
  serve upstream number_to_string rev r req_body w =
  match gate r req_body with
  | Throw e => (Throw e, fresh w)
  | Ok None => rejected (fresh w) (missing_message r)
  | Ok (Some c) =>
      settled rev r (fresh w) c (snd (upstream c (notion w)))
        (let* answer := fst (upstream c (notion w)) in
         answer_of number_to_string r req_body answer)
  end.
Proof.
  unfold serve, handler, fresh. destruct r; cbn [gate answer_of missing_message].
  - rewrite get_databases_run.
    destruct (get req_body (js "notionToken")) as [t|e]; [|reflexivity].
    cbn [Eval.bind]. now destruct (truthy t).
  - rewrite get_posts_run.
    destruct (get req_body (js "notionToken")) as [t|e]; [|reflexivity].
    destruct (get req_body (js "databaseId")) as [d|e]; [|reflexivity].
    cbn [Eval.bind]. now destruct (truthy t && truthy d).
  - rewrite update_post_date_run.
    destruct (get req_body (js "notionToken")) as [t|e]; [|reflexivity].
    destruct (get req_body (js "pageId")) as [p|e]; [|reflexivity].
    destruct (get req_body (js "newDate")) as [d|e]; [|reflexivity].
    cbn [Eval.bind]. now destruct (truthy t && truthy p && truthy d).
Qed.

(** The gate is closed exactly by a required field that is falsy. *)
Lemma gate_closed_iff (r : route) (req_body : value) :
  gate r req_body = Ok None <->
  exists k v, In k (required_fields r) /\ get req_body k = Ok v /\ truthy v = false.
Proof.
  destruct r; cbn [gate required_fields In]; split.
  - destruct (get req_body (js "notionToken")) as [t|] eqn:Ht; [|discriminate].
    cbn [Eval.bind]. destruct (truthy t) eqn:Htt; [discriminate|].
    intros _. exists (js "notionToken"), t. auto.
  - intros [k [v [[<-|[]] [Hv Hf]]]]. now rewrite Hv; cbn [Eval.bind]; rewrite Hf.
  - destruct (get req_body (js "notionToken")) as [t|] eqn:Ht; [|discriminate].
    destruct (get req_body (js "databaseId")) as [d|] eqn:Hd; [|discriminate].
    cbn [Eval.bind].
    destruct (truthy t) eqn:Htt; [destruct (truthy d) eqn:Hdt; [discriminate|]|];
      intros _.
    + exists (js "databaseId"), d. auto.
    + exists (js "notionToken"), t. auto.
  - intros [k [v [Hin [Hv Hf]]]].
    destruct (get_total _ _ _ Hv (js "notionToken")) as [t Ht].
    destruct (get_total _ _ _ Hv (js "databaseId")) as [d Hd].
    rewrite Ht, Hd. cbn [Eval.bind].
    destruct Hin as [<-|[<-|[]]].
    + assert (t = v) by congruence. subst. now rewrite Hf.
    + assert (d = v) by congruence. subst. now rewrite Hf, andb_false_r.
  - destruct (get req_body (js "notionToken")) as [t|] eqn:Ht; [|discriminate].
    destruct (get req_body (js "pageId")) as [p|] eqn:Hp; [|discriminate].
    destruct (get req_body (js "newDate")) as [d|] eqn:Hd; [|discriminate].
    cbn [Eval.bind].
    destruct (truthy t) eqn:Htt;
      [destruct (truthy p) eqn:Hpt;
       [destruct (truthy d) eqn:Hdt; [discriminate|]|]|];
      intros _.
    + exists (js "newDate"), d. auto.
    + exists (js "pageId"), p. auto.
    + exists (js "notionToken"), t. auto.
  - intros [k [v [Hin [Hv Hf]]]].
    destruct (get_total _ _ _ Hv (js "notionToken")) as [t Ht].
    destruct (get_total _ _ _ Hv (js "pageId")) as [p Hp].
    destruct (get_total _ _ _ Hv (js "newDate")) as [d Hd].
    rewrite Ht, Hp, Hd. cbn [Eval.bind].
    destruct Hin as [<-|[<-|[<-|[]]]].
    + assert (t = v) by congruence. subst. now rewrite Hf.
    + assert (p = v) by congruence. subst. now rewrite Hf, andb_false_r.
    + assert (d = v) by congruence. subst. now rewrite Hf, andb_false_r.
Qed.

(** The call behind an open gate: the token of the request as [auth], the
    method of the route. *)
Lemma gate_open (r : route) (req_body : value) (c : upstream_call) :
  gate r req_body = Ok (Some c) ->
  get req_body (js "notionToken") = Ok (call_auth c) /\
  truthy (call_auth c) = true /\
  call_method c = method_of r.
Proof.
  destruct r; cbn [gate method_of].
  - destruct (get req_body (js "notionToken")) as [t|]; [|discriminate].
    cbn [Eval.bind]. destruct (truthy t) eqn:Htt; [|discriminate].
    intros H. injection H as <-. auto.
  - destruct (get req_body (js "notionToken")) as [t|]; [|discriminate].
    destruct (get req_body (js "databaseId")) as [d|]; [|discriminate].
    cbn [Eval.bind]. destruct (truthy t) eqn:Htt; [|discriminate].
    destruct (truthy d); [|discriminate].
    intros H. injection H as <-. auto.
  - destruct (get req_body (js "notionToken")) as [t|]; [|discriminate].
    destruct (get req_body (js "pageId")) as [p|]; [|discriminate].
    destruct (get req_body (js "newDate")) as [d|]; [|discriminate].
    cbn [Eval.bind]. destruct (truthy t) eqn:Htt; [|discriminate].
    destruct (truthy p); [|discriminate]. destruct (truthy d); [|discriminate].
    intros H. injection H as <-. auto.
Qed.

Lemma settled_not_rejected
    (upstream_state : Type) (rev : revision) (r : route)
    (w : world upstream_state) (c : upstream_call) (s' : upstream_state)
    (outcome : result value) (message : jsstring) :
  settled rev r w c s' outcome = rejected w message -> False.
Proof.
  intros H. apply (f_equal (fun run => calls (snd run))) in H.
  rewrite settled_calls in H. cbn in H.
  symmetry in H. exact (not_own_extension _ _ _ H).
Qed.

(** X8: a request is answered with status 400 exactly when one of the
    fields its route requires is falsy in the body (absent, null, false, 0
    or the empty string); the answer is then the route's fixed message, and
    nothing else has happened. *)
Theorem rejected_iff_falsy_field
    (upstream_state : Type)
    (upstream : upstream_call -> upstream_state -> result value * upstream_state)
    (number_to_string : float -> jsstring) (rev : revision)
    (r : route) (req_body : value) (w : world upstream_state) :
  (exists k v,
      In k (required_fields r) /\ get req_body k = Ok v /\ truthy v = false)
  <->
  serve upstream number_to_string rev r req_body w =
  (Ok tt,
   World (notion w) (calls w) (console w) 400
         (sent w ++ [Response 400 (error_object (missing_message r))])).
Proof.
  rewrite <- gate_closed_iff, serve_stages.
  destruct (gate r req_body) as [[c|]|e]; split;
    try discriminate; try reflexivity.
  intros H. exfalso. exact (settled_not_rejected _ _ _ _ _ _ _ _ H).
Qed.

Lemma rejected_iff_falsy_field_witness :
  let req_body := VObj [(js "notionToken", VNum 0);
                        (js "databaseId", VStr (js "db1"))] in
  (exists k v,
      In k (required_fields GetPosts) /\ get req_body k = Ok v /\
      truthy v = false) /\
  serve (counting_upstream (Ok VNull)) unused_number_to_string Compact
    GetPosts req_body idle =
  (Ok tt,
   World 0 [] [] 400
     [Response 400
        (error_object (js "Notion token and Database ID are required."))]).
Proof.
  intros req_body.
  assert (Hfalsy : exists k v,
             In k (required_fields GetPosts) /\ get req_body k = Ok v /\
             truthy v = false).
  { exists (js "notionToken"), (VNum 0).
    split; [left; reflexivity|]. split; reflexivity. }
  split; [exact Hfalsy|].
  exact (proj1 (rejected_iff_falsy_field nat (counting_upstream (Ok VNull))
                  unused_number_to_string Compact GetPosts req_body idle)
           Hfalsy).
Defined.

(** X9: a request whose body can be read ends in exactly one of three
    ways, each with one response: 400 and the route's message, nothing
    else done; 200 after one call that resolved, the console untouched; 500
    and the route's fixed message after one call, one line on the
    console. *)
Theorem request_outcomes
    (upstream_state : Type)
    (upstream : upstream_call -> upstream_state -> result value * upstream_state)
    (number_to_string : float -> jsstring) (rev : revision)
    (r : route) (req_body : value) (w : world upstream_state)
    (k : jsstring) (v : value) :
  get req_body k = Ok v ->
  (serve upstream number_to_string rev r req_body w =
   (Ok tt,
    World (notion w) (calls w) (console w) 400
          (sent w ++ [Response 400 (error_object (missing_message r))]))) \/
  (exists c resolved answer,
      fst (upstream c (notion w)) = Ok resolved /\
      serve upstream number_to_string rev r req_body w =
      (Ok tt,
       World (snd (upstream c (notion w))) (calls w ++ [c]) (console w) 200
             (sent w ++ [Response 200 answer]))) \/
  (exists c detail,
      serve upstream number_to_string rev r req_body w =
      (Ok tt,
       World (snd (upstream c (notion w))) (calls w ++ [c])
             (console w ++ [(failure_label r, detail)]) 500
             (sent w ++ [Response 500 (error_object (failure_message rev r))]))).
Proof.
  intros Hread. rewrite serve_stages.
  destruct (gate r req_body) as [[c|]|e] eqn:Hgate.
  - right.
    destruct (fst (upstream c (notion w))) as [resolved|e] eqn:Hup;
      cbn [Eval.bind].
    + destruct (answer_of number_to_string r req_body resolved) as [answer|e].
      * left. exists c, resolved, answer. split; [exact Hup|reflexivity].
      * right. exists c, (error_body e). reflexivity.
    + right. exists c, (error_body e). reflexivity.
  - left. reflexivity.
  - exfalso.
    assert (Hall : forall k', exists x, get req_body k' = Ok x)
      by exact (get_total _ _ _ Hread).
    destruct (Hall (js "notionToken")) as [t Ht].
    destruct (Hall (js "databaseId")) as [d Hd].
    destruct (Hall (js "pageId")) as [p Hp].
    destruct (Hall (js "newDate")) as [n Hn].
    destruct r; cbn [gate] in Hgate;
      rewrite ?Ht, ?Hd, ?Hp, ?Hn in Hgate; discriminate.
Qed.

Lemma request_outcomes_witness :
  let req_body := VObj [(js "notionToken", VStr (js "t"))] in
  let c := Call (VStr (js "t")) search search_filter in
  get req_body (js "notionToken") = Ok (VStr (js "t")) /\
  ((serve (counting_upstream (Ok VNull)) unused_number_to_string Compact
      GetDatabases req_body idle =
    (Ok tt,
     World (notion idle) (calls idle) (console idle) 400
       (sent idle ++
        [Response 400 (error_object (missing_message GetDatabases))]))) \/
   (exists c resolved answer,
       fst (counting_upstream (Ok VNull) c (notion idle)) = Ok resolved /\
       serve (counting_upstream (Ok VNull)) unused_number_to_string Compact
         GetDatabases req_body idle =
       (Ok tt,
        World (snd (counting_upstream (Ok VNull) c (notion idle)))
          (calls idle ++ [c]) (console idle) 200
          (sent idle ++ [Response 200 answer]))) \/
   (exists c detail,
       serve (counting_upstream (Ok VNull)) unused_number_to_string Compact
         GetDatabases req_body idle =
       (Ok tt,
        World (snd (counting_upstream (Ok VNull) c (notion idle)))
          (calls idle ++ [c])
          (console idle ++ [(failure_label GetDatabases, detail)]) 500
          (sent idle ++
           [Response 500
              (error_object (failure_message Compact GetDatabases))])))) /\
  serve (counting_upstream (Ok VNull)) unused_number_to_string Compact
    GetDatabases req_body idle =
  (Ok tt,
   World 1 [c] [(js "Error fetching databases:", VUndef)] 500
     [Response 500 (error_object (js "Failed to fetch databases from Notion."))]).
Proof.
  intros req_body c. split; [reflexivity|]. split; [|reflexivity].
  exact (request_outcomes nat (counting_upstream (Ok VNull))
           unused_number_to_string Compact GetDatabases req_body idle
           (js "notionToken") (VStr (js "t")) eq_refl).
Defined.

(** X10: a request makes at most one call, and the call it makes is the
    method of its route on a client built with the token of the body, which
    is truthy. *)
Theorem outbound_call_carries_token
    (upstream_state : Type)
    (upstream : upstream_call -> upstream_state -> result value * upstream_state)
    (number_to_string : float -> jsstring) (rev : revision)
    (r : route) (req_body : value) (w : world upstream_state) :
  calls (snd (serve upstream number_to_string rev r req_body w)) = calls w \/
  exists c,
    calls (snd (serve upstream number_to_string rev r req_body w))
    = calls w ++ [c] /\
    get req_body (js "notionToken") = Ok (call_auth c) /\
    truthy (call_auth c) = true /\
    call_method c = method_of r.
Proof.
  rewrite serve_stages.
  destruct (gate r req_body) as [[c|]|e] eqn:Hgate; [right|now left|now left].
  exists c. split; [now rewrite settled_calls|]. exact (gate_open _ _ _ Hgate).
Qed.

(** ** What the reshaping can throw *)

Lemma bind_throws_only_type_error (A B : Type) (r : result A) (k : A -> result B) :
  throws_only_type_error r ->
  (forall a, throws_only_type_error (k a)) ->
  throws_only_type_error (Eval.bind r k).
Proof.
  intros Hr Hk e. destruct r as [a|e']; cbn [Eval.bind].
  - apply Hk.
  - intros H. injection H as <-. now apply Hr.
Qed.

Lemma ok_throws_nothing (A : Type) (a : A) : throws_only_type_error (Ok a).
Proof. intros e H. discriminate. Qed.

Lemma get_throws_only_type_error (v : value) (k : jsstring) :
  throws_only_type_error (get v k).
Proof.
  intros e. destruct v; cbn [get];
    try discriminate; try (intros H; now injection H).
  - destruct (array_index k) as [i|]; [|discriminate].
    destruct (nth_error s (N.to_nat i)); discriminate.
  - destruct (array_index k) as [i|]; [|discriminate].
    destruct (nth_error elems (N.to_nat i)); discriminate.
  - destruct (lookup k fields); discriminate.
Qed.

Lemma get_opt_throws_only_type_error (v : value) (k : jsstring) :
  throws_only_type_error (get_opt v k).
Proof.
  destruct v; try apply ok_throws_nothing; apply get_throws_only_type_error.
Qed.

Ltac only_type_error :=
  repeat first
    [ apply ok_throws_nothing
    | apply get_throws_only_type_error
    | apply get_opt_throws_only_type_error
    | apply bind_throws_only_type_error; [|intros ?] ].

Lemma getProp_throws_only_type_error (properties : value)
    (name type subType : jsstring) :
  throws_only_type_error (getProp properties name type subType).
Proof.
  unfold getProp. only_type_error.
  destruct (negb (truthy a)); [only_type_error|].
  destruct (JsString.eqb type (js "title") || JsString.eqb type (js "rich_text"));
    [only_type_error|].
  destruct (JsString.eqb type (js "url")); [only_type_error|].
  destruct (JsString.eqb type (js "date")); only_type_error.
Qed.

Lemma media_of_throws_only_type_error (properties : value) :
  throws_only_type_error (media_of properties).
Proof.
  unfold media_of.
  apply bind_throws_only_type_error;
    [apply getProp_throws_only_type_error|intros url].
  apply bind_throws_only_type_error; [|intros segs; apply ok_throws_nothing].
  intros e. destruct (or_else url (VStr empty)); cbn [split_commas];
    try discriminate; intros H; now injection H.
Qed.

Lemma post_of_page_throws_only_type_error (page : value) :
  throws_only_type_error (post_of_page page).
Proof.
  unfold post_of_page.
  repeat first
    [ apply ok_throws_nothing
    | apply get_throws_only_type_error
    | apply getProp_throws_only_type_error
    | apply media_of_throws_only_type_error
    | apply bind_throws_only_type_error; [|intros ?] ].
Qed.

Lemma database_summary_throws_only_type_error (db : value) :
  throws_only_type_error (database_summary db).
Proof. unfold database_summary. only_type_error. Qed.

Lemma record_of_throws_only_type_error (r : route) (f : value -> result value) :
  record_of r = Some f -> forall item, throws_only_type_error (f item).
Proof.
  destruct r; cbn [record_of]; intros H; try discriminate;
    injection H as <-; intros item.
  - apply database_summary_throws_only_type_error.
  - apply post_of_page_throws_only_type_error.
Qed.

(** One item that throws makes the whole [map] throw. *)
Lemma mapM_throws (f : value -> result value) (items : list value)
    (item : value) (e : js_error) :
  (forall a, throws_only_type_error (f a)) ->
  In item items -> f item = Throw e ->
  Eval.mapM f items = Throw TypeError.
Proof.
  intros Honly Hin Hitem.
  induction items as [|a items IH]; [contradiction|].
  cbn [Eval.mapM]. destruct (f a) as [b|e'] eqn:Hfa; cbn [Eval.bind].
  - destruct Hin as [->|Hin]; [congruence|].
    now rewrite (IH Hin).
  - now rewrite (Honly a e' Hfa).
Qed.

Lemma answer_of_listing (number_to_string : float -> jsstring) (r : route)
    (f : value -> result value) (req_body answer : value) :
  record_of r = Some f ->
  answer_of number_to_string r req_body answer =
  let* results := get answer (js "results") in array_map f results.
Proof.
  destruct r; cbn [record_of]; intros H; try discriminate;
    now injection H as <-.
Qed.

(** ** The run behind a trace *)

Lemma call_made_gate
    (upstream_state : Type)
    (upstream : upstream_call -> upstream_state -> result value * upstream_state)
    (number_to_string : float -> jsstring) (rev : revision)
    (r : route) (req_body : value) (w : world upstream_state)
    (c : upstream_call) :
  calls (snd (serve upstream number_to_string rev r req_body w))
  = calls w ++ [c] ->
  gate r req_body = Ok (Some c).
Proof.
  rewrite serve_stages.
  destruct (gate r req_body) as [[c'|]|e]; intros H.
  - rewrite settled_calls in H. cbn [fresh calls] in H.
    now rewrite (last_call_inj _ _ _ H).
  - gate_closed H.
  - gate_closed H.
Qed.

(** The run of a request whose call [c] resolved. *)
Lemma serve_resolved
    (upstream_state : Type)
    (upstream : upstream_call -> upstream_state -> result value * upstream_state)
    (number_to_string : float -> jsstring) (rev : revision)
    (r : route) (req_body : value) (w : world upstream_state)
    (c : upstream_call) (resolved : value) (s' : upstream_state) :
  calls (snd (serve upstream number_to_string rev r req_body w))
  = calls w ++ [c] ->
  upstream c (notion w) = (Ok resolved, s') ->
  serve upstream number_to_string rev r req_body w =
  settled rev r (fresh w) c s' (answer_of number_to_string r req_body resolved).
Proof.
  intros Hcalls Hup.
  rewrite serve_stages, (call_made_gate _ _ _ _ _ _ _ _ Hcalls), Hup.
  reflexivity.
Qed.

(** ** The answers of the listing routes, all or nothing *)

(** X12: on the two listing routes, after a call that resolved, the answer
    200 is sent exactly when [results] is an array every item of which the
    callback reshapes; the body is then the array of the records, one for
    each item, in the order upstream gave them. *)
Theorem listing_answers_in_order
    (upstream_state : Type)
    (upstream : upstream_call -> upstream_state -> result value * upstream_state)
    (number_to_string : float -> jsstring) (rev : revision)
    (r : route) (f : value -> result value)
    (req_body : value) (w : world upstream_state)
    (c : upstream_call) (resolved : value) (s' : upstream_state)
    (answer : value) :
  record_of r = Some f ->
  calls (snd (serve upstream number_to_string rev r req_body w))
  = calls w ++ [c] ->
  upstream c (notion w) = (Ok resolved, s') ->
  (sent (snd (serve upstream number_to_string rev r req_body w))
   = sent w ++ [Response 200 answer]
   <->
   exists items records,
     get resolved (js "results") = Ok (VArr items) /\
     Forall2 (fun item record => f item = Ok record) items records /\
     answer = VArr records).
Proof.
  intros Hf Hcalls Hup.
  rewrite (serve_resolved _ _ _ _ _ _ _ _ _ _ Hcalls Hup).
  rewrite (answer_of_listing _ _ _ _ _ Hf).
  split.
  - intros Hsent.
    destruct (get resolved (js "results")) as [results|e];
      [|apply app_inv_head in Hsent; discriminate].
    cbn [Eval.bind] in Hsent.
    destruct results as [| | | | |items|];
      try (apply app_inv_head in Hsent; discriminate).
    cbn [array_map] in Hsent.
    destruct (Eval.mapM f items) as [records|e] eqn:Hmap;
      [|apply app_inv_head in Hsent; discriminate].
    cbn [Eval.bind settled fresh snd sent statusCode] in Hsent.
    apply app_inv_head in Hsent. injection Hsent as <-.
    exists items, records. split; [reflexivity|].
    split; [now apply mapM_Forall2|reflexivity].
  - intros [items [records [Hresults [Hall ->]]]].
    rewrite Hresults. cbn [Eval.bind].
    now rewrite (array_map_Forall2 _ _ _ Hall).
Qed.

Lemma listing_answers_in_order_witness :
  let resolved :=
    VObj [(js "results",
           VArr [VObj [(js "id", VStr (js "d2")); (js "title", VArr [])];
                 VObj [(js "id", VStr (js "d1"));
                       (js "title", VArr [VObj [(js "plain_text", VStr (js "Plan"))]])]])] in
  let req_body := VObj [(js "notionToken", VStr (js "t"))] in
  let c := Call (VStr (js "t")) search search_filter in
  let answer :=
    VArr [VObj [(js "id", VStr (js "d2")); (js "title", VStr untitled)];
          VObj [(js "id", VStr (js "d1")); (js "title", VStr (js "Plan"))]] in
  record_of GetDatabases = Some database_summary /\
  calls (snd (serve (counting_upstream (Ok resolved)) unused_number_to_string
                Compact GetDatabases req_body idle))
  = calls idle ++ [c] /\
  counting_upstream (Ok resolved) c (notion idle) = (Ok resolved, 1) /\
  sent (snd (serve (counting_upstream (Ok resolved)) unused_number_to_string
               Compact GetDatabases req_body idle))
  = sent idle ++ [Response 200 answer] /\
  exists items records,
    get resolved (js "results") = Ok (VArr items) /\
    Forall2 (fun item record => database_summary item = Ok record)
      items records /\
    answer = VArr records.
Proof.
  intros resolved req_body c answer.
  split; [reflexivity|]. split; [reflexivity|]. split; [reflexivity|].
  split; [reflexivity|].
  exact (proj1 (listing_answers_in_order nat (counting_upstream (Ok resolved))
                  unused_number_to_string Compact GetDatabases
                  database_summary req_body idle c resolved 1 answer
                  eq_refl eq_refl eq_refl) eq_refl).
Defined.

(** The world after the [catch] block of route [r] has run on a TypeError. *)
Lemma settled_type_error
    (upstream_state : Type) (rev : revision) (r : route)
    (w : world upstream_state) (c : upstream_call) (s' : upstream_state) :
  settled rev r (fresh w) c s' (Throw TypeError) =
  (Ok tt,
   World s' (calls w ++ [c]) (console w ++ [(failure_label r, VUndef)]) 500
         (sent w ++ [Response 500 (error_object (failure_message rev r))])).
Proof. reflexivity. Qed.

(** X13: one item of [results] that the callback cannot reshape fails the
    whole listing: the answer is 500 with the route's fixed message, no
    record of the other items is sent, and the console gets [undefined] as
    the detail, a TypeError having no [body]. *)
Theorem bad_record_fails_listing
    (upstream_state : Type)
    (upstream : upstream_call -> upstream_state -> result value * upstream_state)
    (number_to_string : float -> jsstring) (rev : revision)
    (r : route) (f : value -> result value)
    (req_body : value) (w : world upstream_state)
    (c : upstream_call) (resolved : value) (s' : upstream_state)
    (items : list value) (item : value) (e : js_error) :
  record_of r = Some f ->
  calls (snd (serve upstream number_to_string rev r req_body w))
  = calls w ++ [c] ->
  upstream c (notion w) = (Ok resolved, s') ->
  get resolved (js "results") = Ok (VArr items) ->
  In item items ->
  f item = Throw e ->
  serve upstream number_to_string rev r req_body w =
  (Ok tt,
   World s' (calls w ++ [c]) (console w ++ [(failure_label r, VUndef)]) 500
         (sent w ++ [Response 500 (error_object (failure_message rev r))])).
Proof.
  intros Hf Hcalls Hup Hresults Hin Hitem.
  rewrite (serve_resolved _ _ _ _ _ _ _ _ _ _ Hcalls Hup).
  rewrite (answer_of_listing _ _ _ _ _ Hf), Hresults.
  cbn [Eval.bind array_map].
  rewrite (mapM_throws f items item e
             (record_of_throws_only_type_error _ _ Hf) Hin Hitem).
  apply settled_type_error.
Qed.

Lemma bad_record_fails_listing_witness :
  let good := VObj [(js "id", VStr (js "p1")); (js "properties", VObj [])] in
  let bad := VObj [(js "id", VStr (js "p2"))] in
  let resolved := VObj [(js "results", VArr [good; bad])] in
  let req_body := VObj [(js "notionToken", VStr (js "t"));
                        (js "databaseId", VStr (js "db1"))] in
  let c := Call (VStr (js "t")) databases_query (posts_query (VStr (js "db1"))) in
  post_of_page good
  = Ok (post_record (VStr (js "p1")) VNull (VArr []) VNull VNull) /\
  post_of_page bad = Throw TypeError /\
  serve (counting_upstream (Ok resolved)) unused_number_to_string Compact
    GetPosts req_body idle =
  (Ok tt,
   World 1 [c] [(js "Error fetching posts:", VUndef)] 500
     [Response 500 (error_object (js "Failed to fetch posts from Notion."))]).
Proof.
  intros good bad resolved req_body c.
  split; [reflexivity|]. split; [reflexivity|].
  exact (bad_record_fails_listing nat (counting_upstream (Ok resolved))
           unused_number_to_string Compact GetPosts post_of_page req_body idle
           c resolved 1 [good; bad] bad TypeError
           eq_refl eq_refl eq_refl eq_refl (or_intror (or_introl eq_refl))
           eq_refl).
Defined.

(** X14: on the two listing routes, an answer whose [results] is missing,
    or is anything but an array, is answered with 500 and the route's fixed
    message. *)
Theorem results_not_array_is_500
    (upstream_state : Type)
    (upstream : upstream_call -> upstream_state -> result value * upstream_state)
    (number_to_string : float -> jsstring) (rev : revision)
    (r : route) (f : value -> result value)
    (req_body : value) (w : world upstream_state)
    (c : upstream_call) (resolved : value) (s' : upstream_state) :
  record_of r = Some f ->
  calls (snd (serve upstream number_to_string rev r req_body w))
  = calls w ++ [c] ->
  upstream c (notion w) = (Ok resolved, s') ->
  (forall items, get resolved (js "results") = Ok (VArr items) -> False) ->
  serve upstream number_to_string rev r req_body w =
  (Ok tt,
   World s' (calls w ++ [c]) (console w ++ [(failure_label r, VUndef)]) 500
         (sent w ++ [Response 500 (error_object (failure_message rev r))])).
Proof.
  intros Hf Hcalls Hup Hnot.
  rewrite (serve_resolved _ _ _ _ _ _ _ _ _ _ Hcalls Hup).
  rewrite (answer_of_listing _ _ _ _ _ Hf).
  destruct (get resolved (js "results")) as [results|e] eqn:Hresults.
  - cbn [Eval.bind].
    destruct results as [| | | | |items|];
      try apply settled_type_error.
    exfalso. exact (Hnot items eq_refl).
  - cbn [Eval.bind].
    rewrite (get_throws_only_type_error _ _ e Hresults).
    apply settled_type_error.
Qed.

Lemma results_not_array_is_500_witness :
  let resolved := VObj [(js "object", VStr (js "error"))] in
  let req_body := VObj [(js "notionToken", VStr (js "t"))] in
  let c := Call (VStr (js "t")) search search_filter in
  get resolved (js "results") = Ok VUndef /\
  serve (counting_upstream (Ok resolved)) unused_number_to_string Annotated
    GetDatabases req_body idle =
  (Ok tt,
   World 1 [c] [(js "Error fetching databases:", VUndef)] 500
     [Response 500
        (error_object
           (js "Failed to fetch databases from Notion. Check your token and permissions."))]).
Proof.
  intros resolved req_body c. split; [reflexivity|].
  refine (results_not_array_is_500 nat (counting_upstream (Ok resolved))
            unused_number_to_string Annotated GetDatabases database_summary
            req_body idle c resolved 1 eq_refl eq_refl eq_refl _).
  intros items H. discriminate H.
Defined.

(** X15: whatever the body holds, an answer 200 of the update route is
    [{ success: true, message }], the message made of the page id and the
    date of the body as a template literal prints them. *)
Theorem update_answer_shape
    (upstream_state : Type)
    (upstream : upstream_call -> upstream_state -> result value * upstream_state)
    (number_to_string : float -> jsstring) (rev : revision)
    (req_body : value) (w : world upstream_state) (answer : value) :
  sent (snd (serve upstream number_to_string rev UpdatePostDate req_body w))
  = sent w ++ [Response 200 answer] ->
  exists pageId newDate p d,
    get req_body (js "pageId") = Ok pageId /\
    get req_body (js "newDate") = Ok newDate /\
    to_string number_to_string pageId = Ok p /\
    to_string number_to_string newDate = Ok d /\
    answer = VObj [(js "success", VBool true);
                   (js "message",
                    VStr (js "Post " ++ p ++ js " updated to " ++ d))].
Proof.
  rewrite serve_stages. intros Hsent.
  destruct (gate UpdatePostDate req_body) as [[c|]|e];
    [|apply app_inv_head in Hsent; discriminate
     |now apply not_own_extension in Hsent].
  destruct (fst (upstream c (notion w))) as [resolved|e];
    [|apply app_inv_head in Hsent; discriminate].
  cbn [Eval.bind answer_of] in Hsent.
  destruct (get req_body (js "pageId")) as [pageId|e];
    [|apply app_inv_head in Hsent; discriminate].
  destruct (get req_body (js "newDate")) as [newDate|e];
    [|apply app_inv_head in Hsent; discriminate].
  cbn [Eval.bind] in Hsent. unfold acknowledgement in Hsent.
  destruct (to_string number_to_string pageId) as [p|e] eqn:Hp;
    [|apply app_inv_head in Hsent; discriminate].
  destruct (to_string number_to_string newDate) as [d|e] eqn:Hd;
    [|apply app_inv_head in Hsent; discriminate].
  cbn [Eval.bind settled fresh snd sent statusCode] in Hsent.
  apply app_inv_head in Hsent. injection Hsent as <-.
  exists pageId, newDate, p, d. repeat split; assumption.
Qed.

Lemma update_answer_shape_witness :
  let req_body := VObj [(js "notionToken", VStr (js "t"));
                        (js "pageId", VArr [VStr (js "p1"); VNull; VBool true]);
                        (js "newDate", VStr (js "2024-05-01"))] in
  sent (snd (serve (counting_upstream (Ok VNull)) unused_number_to_string
               Compact UpdatePostDate req_body idle))
  = sent idle ++
    [Response 200
       (VObj [(js "success", VBool true);
              (js "message",
               VStr (js "Post p1,,true updated to 2024-05-01"))])] /\
  exists pageId newDate p d,
    get req_body (js "pageId") = Ok pageId /\
    get req_body (js "newDate") = Ok newDate /\
    to_string unused_number_to_string pageId = Ok p /\
    to_string unused_number_to_string newDate = Ok d /\
    VObj [(js "success", VBool true);
          (js "message", VStr (js "Post p1,,true updated to 2024-05-01"))]
    = VObj [(js "success", VBool true);
            (js "message",
             VStr (js "Post " ++ p ++ js " updated to " ++ d))].
Proof.
  intros req_body. split; [reflexivity|].
  exact (update_answer_shape nat (counting_upstream (Ok VNull))
           unused_number_to_string Compact req_body idle _ eq_refl).
Defined.

(** ** What a record holds *)

(** At the kinds [title] and [rich_text] the helper gives null, the empty
    string or something truthy, and so never [undefined]. *)
Lemma text_value_cases (properties v : value) (name type subType : jsstring) :
  type = js "title" \/ type = js "rich_text" ->
  getProp properties name type subType = Ok v ->
  v = VNull \/ v = VStr empty \/ truthy v = true.
Proof.
  intros Hkind Hv.
  destruct (get properties name) as [prop|e] eqn:Hget;
    [|unfold getProp in Hv; now rewrite Hget in Hv].
  destruct (truthy prop) eqn:Hpresent.
  - rewrite (getProp_present _ _ _ _ _ Hget Hpresent), (is_text_kind _ Hkind)
      in Hv.
    destruct (get prop type) as [frags|]; [|discriminate].
    cbn [Eval.bind] in Hv.
    destruct (get frags (js "0")) as [first|]; [|discriminate].
    cbn [Eval.bind] in Hv.
    destruct (get_opt first subType) as [text|]; [|discriminate].
    cbn [Eval.bind] in Hv. injection Hv as <-.
    unfold or_else. destruct (truthy text) eqn:Ht; auto.
  - rewrite (getProp_falsy _ _ _ _ _ Hget Hpresent) in Hv.
    injection Hv as <-. auto.
Qed.

(** X7: a record, when the callback of [/api/get-posts] gives one, is
    [{ id, headline, media, caption, date }] with the [id] of the page, a
    [media] that is an array of clean URLs, and a [headline] and a
    [caption] that are null, the empty string or truthy: of the five
    fields only [id] and [date] can be [undefined]. *)
Theorem post_record_shape (page post : value) :
  post_of_page page = Ok post ->
  exists id headline urls caption date,
    post = VObj [(js "id", id); (js "headline", headline);
                 (js "media", VArr (map VStr urls));
                 (js "caption", caption); (js "date", date)] /\
    get page (js "id") = Ok id /\
    forallb clean_url urls = true /\
    (headline = VNull \/ headline = VStr empty \/ truthy headline = true) /\
    (caption = VNull \/ caption = VStr empty \/ truthy caption = true).
Proof.
  unfold post_of_page. intros H.
  destruct (get page (js "properties")) as [properties|]; [|discriminate].
  cbn [Eval.bind] in H.
  destruct (get page (js "id")) as [id|]; [|discriminate].
  cbn [Eval.bind] in H.
  destruct (getProp properties (js "Headline") (js "title") plain_text)
    as [headline|] eqn:Hh; [|discriminate].
  cbn [Eval.bind] in H.
  destruct (media_of properties) as [media|] eqn:Hm; [|discriminate].
  cbn [Eval.bind] in H.
  destruct (getProp properties (js "Caption") (js "rich_text") plain_text)
    as [caption|] eqn:Hc; [|discriminate].
  cbn [Eval.bind] in H.
  destruct (getProp properties (js "Scheduled Date") (js "date") plain_text)
    as [date|]; [|discriminate].
  cbn [Eval.bind] in H. injection H as <-.
  destruct (media_entries_clean _ _ Hm) as [urls [-> Hclean]].
  exists id, headline, urls, caption, date.
  split; [reflexivity|]. split; [reflexivity|]. split; [exact Hclean|]. split.
  - apply (text_value_cases properties headline (js "Headline") (js "title")
             plain_text); [now left|exact Hh].
  - apply (text_value_cases properties caption (js "Caption") (js "rich_text")
             plain_text); [now right|exact Hc].
Qed.

Lemma post_record_shape_witness :
  let page :=
    VObj [(js "properties",
           VObj [(js "Headline", VObj [(js "title", VArr [])]);
                 (js "Media", VObj [(js "url", VStr (js " http://a ,,http://b"))])])] in
  let post :=
    VObj [(js "id", VUndef); (js "headline", VStr empty);
          (js "media", VArr [VStr (js "http://a"); VStr (js "http://b")]);
          (js "caption", VNull); (js "date", VNull)] in
  post_of_page page = Ok post /\
  exists id headline urls caption date,
    post = VObj [(js "id", id); (js "headline", headline);
                 (js "media", VArr (map VStr urls));
                 (js "caption", caption); (js "date", date)] /\
    get page (js "id") = Ok id /\
    forallb clean_url urls = true /\
    (headline = VNull \/ headline = VStr empty \/ truthy headline = true) /\
    (caption = VNull \/ caption = VStr empty \/ truthy caption = true).
Proof.
  intros page post. split; [reflexivity|].
  exact (post_record_shape page post eq_refl).
Defined.
